(** * The listings ingestion pipeline of [process_data.py]

    A shallow embedding of [DataCleaner] (the two source adapters and
    [validate_data]) and of [DataLoader.load_listings], with the properties
    the specification states about them.

    Layout: MD5 (the hash behind [listing_id]), cell values and data frames,
    the external primitives of pandas / CPython / the database schema that
    the repository does not define, the cleaner, the loader, a reference
    instance of the externals, and then the theorems. *)

From Stdlib Require Import ZArith QArith Qround Lia List Ascii String.
From stdpp Require Import base option list gmap strings pretty.

Close Scope Q_scope.
Local Open Scope Z_scope.

(* ===================================================================== *)
(** ** MD5 (RFC 1321), as [hashlib.md5(...).hexdigest()] computes it      *)
(* ===================================================================== *)

Module MD5.

(** 32-bit words are integers in [[0, 2^32)]; every operation wraps. *)
Definition add32 (x y : Z) : Z := (x + y) mod 2 ^ 32.
Definition not32 (x : Z) : Z := Z.lxor x 0xFFFFFFFF.
Definition rotl32 (x c : Z) : Z :=
  Z.lor (Z.shiftl x c mod 2 ^ 32) (Z.shiftr x (32 - c)).

Definition F (b c d : Z) : Z := Z.lor (Z.land b c) (Z.land (not32 b) d).
Definition G (b c d : Z) : Z := Z.lor (Z.land b d) (Z.land c (not32 d)).
Definition H (b c d : Z) : Z := Z.lxor (Z.lxor b c) d.
Definition I (b c d : Z) : Z := Z.lxor c (Z.lor b (not32 d)).

(** Per-round left-rotation amounts. *)
Definition S_table : list Z :=
  [ 7; 12; 17; 22; 7; 12; 17; 22; 7; 12; 17; 22; 7; 12; 17; 22;
    5;  9; 14; 20; 5;  9; 14; 20; 5;  9; 14; 20; 5;  9; 14; 20;
    4; 11; 16; 23; 4; 11; 16; 23; 4; 11; 16; 23; 4; 11; 16; 23;
    6; 10; 15; 21; 6; 10; 15; 21; 6; 10; 15; 21; 6; 10; 15; 21 ].

(** [K i = floor (2^32 * |sin (i + 1)|)]. *)
Definition K_table : list Z :=
  [ 0xd76aa478; 0xe8c7b756; 0x242070db; 0xc1bdceee;
    0xf57c0faf; 0x4787c62a; 0xa8304613; 0xfd469501;
    0x698098d8; 0x8b44f7af; 0xffff5bb1; 0x895cd7be;
    0x6b901122; 0xfd987193; 0xa679438e; 0x49b40821;
    0xf61e2562; 0xc040b340; 0x265e5a51; 0xe9b6c7aa;
    0xd62f105d; 0x02441453; 0xd8a1e681; 0xe7d3fbc8;
    0x21e1cde6; 0xc33707d6; 0xf4d50d87; 0x455a14ed;
    0xa9e3e905; 0xfcefa3f8; 0x676f02d9; 0x8d2a4c8a;
    0xfffa3942; 0x8771f681; 0x6d9d6122; 0xfde5380c;
    0xa4beea44; 0x4bdecfa9; 0xf6bb4b60; 0xbebfbc70;
    0x289b7ec6; 0xeaa127fa; 0xd4ef3085; 0x04881d05;
    0xd9d4d039; 0xe6db99e5; 0x1fa27cf8; 0xc4ac5665;
    0xf4292244; 0x432aff97; 0xab9423a7; 0xfc93a039;
    0x655b59c3; 0x8f0ccc92; 0xffeff47d; 0x85845dd1;
    0x6fa87e4f; 0xfe2ce6e0; 0xa3014314; 0x4e0811a1;
    0xf7537e82; 0xbd3af235; 0x2ad7d2bb; 0xeb86d391 ].

Record state := State { sA : Z; sB : Z; sC : Z; sD : Z }.

Definition init : state :=
  State 0x67452301 0xefcdab89 0x98badcfe 0x10325476.

(** The mixing function and the message-word index of operation [i]. *)
Definition mix (i : nat) (b c d : Z) : Z * nat :=
  if (i <? 16)%nat then (F b c d, i)
  else if (i <? 32)%nat then (G b c d, ((5 * i + 1) mod 16)%nat)
  else if (i <? 48)%nat then (H b c d, ((3 * i + 5) mod 16)%nat)
  else (I b c d, ((7 * i) mod 16)%nat).

Definition step (M : list Z) (st : state) (i : nat) : state :=
  let '(f, g) := mix i (sB st) (sC st) (sD st) in
  let f' := add32 (add32 (add32 f (sA st)) (nth i K_table 0)) (nth g M 0) in
  State (sD st) (add32 (sB st) (rotl32 f' (nth i S_table 0))) (sB st) (sC st).

(** Little-endian 32-bit word of four bytes. *)
Definition word_le (bs : list Z) : Z :=
  nth 0 bs 0 + 2 ^ 8 * nth 1 bs 0 + 2 ^ 16 * nth 2 bs 0 + 2 ^ 24 * nth 3 bs 0.

Fixpoint words (n : nat) (bs : list Z) : list Z :=
  match n with
  | O => []
  | S n => word_le (firstn 4 bs) :: words n (skipn 4 bs)
  end.

Definition compress (st : state) (block : list Z) : state :=
  let st' := fold_left (step (words 16 block)) (seq 0 64) st in
  State (add32 (sA st) (sA st')) (add32 (sB st) (sB st'))
        (add32 (sC st) (sC st')) (add32 (sD st) (sD st')).

Fixpoint blocks (n : nat) (bs : list Z) (st : state) : state :=
  match n with
  | O => st
  | S n => blocks n (skipn 64 bs) (compress st (firstn 64 bs))
  end.

Fixpoint bytes_le (n : nat) (x : Z) : list Z :=
  match n with
  | O => []
  | S n => x mod 256 :: bytes_le n (x / 256)
  end.

(** Padding: a [0x80] byte, zeros up to 56 modulo 64, the bit length on
    eight little-endian bytes. *)
Definition pad (msg : list Z) : list Z :=
  let len := Z.of_nat (length msg) in
  let zeros := Z.to_nat ((55 - len) mod 64) in
  msg ++ 0x80 :: repeat 0 zeros ++ bytes_le 8 ((8 * len) mod 2 ^ 64).

Definition digest (msg : list Z) : state :=
  let p := pad msg in
  blocks (length p / 64)%nat p init.

Definition hex_digit (n : Z) : ascii :=
  match n with
  | 0 => "0" | 1 => "1" | 2 => "2" | 3 => "3" | 4 => "4" | 5 => "5"
  | 6 => "6" | 7 => "7" | 8 => "8" | 9 => "9" | 10 => "a" | 11 => "b"
  | 12 => "c" | 13 => "d" | 14 => "e" | _ => "f"
  end%char.

(** Eight lower-case hex digits of a word, bytes in little-endian order. *)
Definition hex_word (x : Z) : string :=
  let d (k : Z) := hex_digit ((x / 2 ^ k) mod 16) in
  String (d 4) (String (d 0) (String (d 12) (String (d 8)
  (String (d 20) (String (d 16) (String (d 28) (String (d 24) ""))))))).

Definition bytes_of_string (s : string) : list Z :=
  map (fun c => Z.of_N (N_of_ascii c)) (list_ascii_of_string s).

(** [hashlib.md5(s.encode()).hexdigest()]: strings are byte strings here,
    so [encode] is the identity on them. *)
Definition hexdigest (s : string) : string :=
  let st := digest (bytes_of_string s) in
  hex_word (sA st) +:+ hex_word (sB st) +:+ hex_word (sC st) +:+ hex_word (sD st).

End MD5.

(** Python's slice [s[:n]]. *)
Fixpoint str_take (n : nat) (s : string) : string :=
  match n, s with
  | S n, String c s => String c (str_take n s)
  | _, _ => ""
  end.


(* ===================================================================== *)
(** ** Cell values and data frames                                        *)
(* ===================================================================== *)

(** A float64 that is not NaN: a rational or an infinity. *)
Inductive float := Fin (q : Q) | PInf | NInf.

(** What a pandas cell holds. [VNull] stands for [None], [NaN] and [NaT]
    alike: [pd.isna] holds of all three and the pipeline tells them apart
    only when one is formatted into the hash input (see [format_value] and
    [format_date]). [VTime t] is a [Timestamp], [t] nanoseconds after the
    epoch. Strings are byte strings (the UTF-8 encoding of the [str]). *)
Inductive value :=
| VNull
| VInt (z : Z)
| VFloat (x : float)
| VStr (s : string)
| VTime (t : Z).

(** One record ([Series] indexed by column label). *)
Abbreviation Row := (gmap string value).

(** A frame: its column labels in order, and its records in row order.
    Labels are distinct, and every record is defined on the labels. *)
Record DataFrame := Frame { columns : list string; rows : list Row }.

(** [pd.DataFrame()] *)
Definition empty_frame : DataFrame := Frame [] [].

(** [df.empty]: some axis has length 0. *)
Definition df_empty (df : DataFrame) : bool :=
  match columns df, rows df with
  | _ :: _, _ :: _ => false
  | _, _ => true
  end.

(** [len(df)] *)
Definition df_len (df : DataFrame) : nat := length (rows df).

(** The cell of record [r] under label [c] (a record of a well-formed frame
    is defined on every label; a missing cell reads as null). *)
Definition cell (r : Row) (c : string) : value := default VNull (r !! c).

(** [row.get(c)]: [None] when the label is absent. *)
Definition row_get (r : Row) (c : string) : value := default VNull (r !! c).

(** [pd.notna] *)
Definition notna (v : value) : bool :=
  match v with VNull => false | _ => true end.

Definition float_leb (x y : float) : bool :=
  match x, y with
  | NInf, _ => true
  | _, PInf => true
  | Fin p, Fin q => Qle_bool p q
  | _, _ => false
  end.

Definition float_ltb (x y : float) : bool := negb (float_leb y x).

Definition float_of_Z (z : Z) : float := Fin (inject_Z z).

(** A numeric cell as a float64; [None] on cells that are not numbers. *)
Definition number (v : value) : option float :=
  match v with
  | VInt z => Some (float_of_Z z)
  | VFloat x => Some x
  | _ => None
  end.

(** Element-wise comparison of a column cell with an integer bound, as
    [series >= bound] and the like compute it: a null compares false, a
    number is compared, a string or a timestamp raises [TypeError]
    ([None] here). *)
Definition compare_cell (op : float -> float -> bool) (v : value) (bound : Z)
  : option bool :=
  match v with
  | VNull => Some false
  | VInt _ | VFloat _ => (fun x => op x (float_of_Z bound)) <$> number v
  | VStr _ | VTime _ => None
  end.

Definition cell_ge := compare_cell (fun x b => float_leb b x).
Definition cell_le := compare_cell (fun x b => float_leb x b).
Definition cell_lt := compare_cell (fun x b => float_ltb x b).
Definition cell_gt := compare_cell (fun x b => float_ltb b x).

(** *** Frame operations *)

(** [df[c] = f(row)] for every row: the column is overwritten, or appended
    when new. *)
Definition add_label (c : string) (cols : list string) : list string :=
  if decide (c ∈ cols) then cols else cols ++ [c].

Definition assign (c : string) (f : Row -> value) (df : DataFrame) : DataFrame :=
  Frame (add_label c (columns df)) ((fun r => <[c := f r]> r) <$> rows df).

(** The same with a cell function that can raise: the first exception
    aborts the assignment. *)
Definition assign_try (c : string) (f : Row -> option value) (df : DataFrame)
  : option DataFrame :=
  rs ← mapM (fun r => v ← f r; Some (<[c := v]> r)) (rows df);
  Some (Frame (add_label c (columns df)) rs).

(** [df.rename(columns={old: new})] for one pair. *)
Definition rename_label (old new c : string) : string :=
  if decide (c = old) then new else c.

Definition rename_row (old new : string) (r : Row) : Row :=
  match r !! old with
  | Some v => <[new := v]> (delete old r)
  | None => r
  end.

Definition rename1 (df : DataFrame) (p : string * string) : DataFrame :=
  Frame (rename_label p.1 p.2 <$> columns df) (rename_row p.1 p.2 <$> rows df).

(** [df.rename(columns=m)], the pairs taken in dict order. In both rename
    maps of the cleaner no new label is the old label of a later pair, so
    this is pandas' simultaneous relabelling. A new label that the frame
    already has is outside the model (pandas keeps two columns under one
    label; here the renamed column replaces the other). *)
Definition rename (m : list (string * string)) (df : DataFrame) : DataFrame :=
  fold_left rename1 m df.

(** [df[[c for c in wanted if c in df.columns]]] *)
Definition restrict (cols : list string) (r : Row) : Row :=
  filter (fun kv => kv.1 ∈ cols) r.

Definition select (wanted : list string) (df : DataFrame) : DataFrame :=
  let cols := filter (fun c => c ∈ columns df) wanted in
  Frame cols (restrict cols <$> rows df).

(** [df.dropna(subset=[c])] *)
Definition dropna (c : string) (df : DataFrame) : DataFrame :=
  Frame (columns df) (filter (fun r => notna (cell r c) = true) (rows df)).

(** Equality of two cells as pandas' duplicate detection sees it: numbers
    by value, nulls equal to each other. *)
Definition float_eqb (x y : float) : bool :=
  match x, y with
  | Fin p, Fin q => Qeq_bool p q
  | PInf, PInf | NInf, NInf => true
  | _, _ => false
  end.

Definition value_eqb (v w : value) : bool :=
  match v, w with
  | VNull, VNull => true
  | VStr s, VStr t => bool_decide (s = t)
  | VTime s, VTime t => bool_decide (s = t)
  | (VInt _ | VFloat _), (VInt _ | VFloat _) =>
      match number v, number w with
      | Some x, Some y => float_eqb x y
      | _, _ => false
      end
  | _, _ => false
  end.

(** [df.drop_duplicates(subset=[c])]: the first record of each value of
    [c] is kept. *)
Fixpoint dedup_rows (c : string) (seen : list value) (rs : list Row)
  : list Row :=
  match rs with
  | [] => []
  | r :: rs =>
      if existsb (value_eqb (cell r c)) seen
      then dedup_rows c seen rs
      else r :: dedup_rows c (cell r c :: seen) rs
  end.

Definition drop_duplicates (c : string) (df : DataFrame) : DataFrame :=
  Frame (columns df) (dedup_rows c [] (rows df)).

(** [df.melt(id_vars, value_vars, var_name='date', value_name='price')]:
    one record per value column and input record, value columns outermost;
    each keeps the id cells and gets the value column's label under [date]
    and its cell under [price]. *)
Definition melt_row (id_vars : list string) (c : string) (r : Row) : Row :=
  <["price" := cell r c]> (<["date" := VStr c]> (restrict id_vars r)).

Definition melt (id_vars value_vars : list string) (df : DataFrame)
  : DataFrame :=
  Frame (id_vars ++ ["date"; "price"])
        (c ← value_vars; melt_row id_vars c <$> rows df).

(* ===================================================================== *)
(** ** External primitives                                                *)
(* ===================================================================== *)

(** Functions of pandas and CPython that the cleaner and the loader call
    and the repository does not define. [None] is a raised exception. *)
Class Externals := {
  (** [pd.to_datetime] on one non-null scalar: the timestamp, or raises *)
  to_datetime : value -> option Z;
  (** [str(Timestamp)], as an f-string formats it *)
  str_timestamp : Z -> string;
  (** [str(float)] *)
  str_float : float -> string;
  (** [pd.to_numeric] on one string: [None] when it is no number (or NaN) *)
  to_numeric_str : string -> option float;
  (** [float(s)] and [int(s)] on a string: [None] is [ValueError] *)
  float_of_str : string -> option float;
  int_of_str : string -> option Z
}.

(* ===================================================================== *)
(** ** [DataCleaner]                                                      *)
(* ===================================================================== *)

(** How an f-string formats a cell. An [int] prints in decimal and a [str]
    as itself; a null key cell is a NaN. *)
Definition format_value `{Externals} (v : value) : string :=
  match v with
  | VNull => "nan"
  | VInt z => pretty z
  | VFloat x => str_float x
  | VStr s => s
  | VTime t => str_timestamp t
  end.

(** The same for a cell of a datetime column, whose null is [NaT]. *)
Definition format_date `{Externals} (v : value) : string :=
  match v with
  | VNull => "NaT"
  | _ => format_value v
  end.

(** [hashlib.md5(text.encode()).hexdigest()[:16]] *)
Definition md5_16 (text : string) : string := str_take 16 (MD5.hexdigest text).

(** The text that is hashed: [f"{source}_{key}_{period}"]. *)
Definition id_text `{Externals} (source : string) (key period : value) : string :=
  source +:+ "_" +:+ format_value key +:+ "_" +:+ format_date period.

Definition listing_id_of `{Externals} (source : string) (key period : value)
  : value :=
  VStr (md5_16 (id_text source key period)).

(** [str.lower] on the ASCII letters (bytes above 127 are left as they
    are). *)
Definition lower_ascii (c : ascii) : ascii :=
  let n := N_of_ascii c in
  if ((65 <=? n) && (n <=? 90))%N then ascii_of_N (n + 32) else c.

Fixpoint str_lower (s : string) : string :=
  match s with
  | EmptyString => EmptyString
  | String c s => String (lower_ascii c) (str_lower s)
  end.

Definition is_str (v : value) : bool :=
  match v with VStr _ => true | _ => false end.

Section DataCleaner.
Context `{Externals}.

(** [self.validation_rules] *)
Definition validation_rules (field : string) : Z * Z :=
  if decide (field = "price") then (0, 100000000)
  else if decide (field = "sqft") then (100, 50000)
  else if decide (field = "bedrooms") then (0, 20)
  else (0, 15).

(** The column order both adapters select. *)
Definition listing_columns : list string :=
  [ "listing_id"; "date"; "region"; "city"; "property_type"; "price";
    "tax"; "sale_type"; "ownership"; "bedrooms"; "bathrooms"; "sqft" ].

(** [pd.to_datetime(column)], cell by cell: a null becomes [NaT]. *)
Definition to_datetime_cell (v : value) : option value :=
  match v with
  | VNull => Some VNull
  | _ => VTime <$> to_datetime v
  end.

(** [pd.to_numeric(column, errors='coerce')], cell by cell: what is no
    number becomes NaN. *)
Definition to_numeric_coerce (v : value) : value :=
  match v with
  | VInt _ | VFloat _ => v
  | VStr s => from_option VFloat VNull (to_numeric_str s)
  | VNull | VTime _ => VNull
  end.

(** [df.apply(f, axis=1)] assigned to column [c]. On a frame without
    records [apply] returns a frame, and assigning that to one column
    raises. *)
Definition apply_assign (c : string) (f : Row -> option value)
    (df : DataFrame) : option DataFrame :=
  match rows df with
  | [] => None
  | _ => assign_try c f df
  end.

(** *** [clean_zillow_data] *)

Definition zillow_id_vars : list string :=
  [ "RegionID"; "SizeRank"; "RegionName"; "RegionType"; "StateName" ].

(** The lambda of lines 67-70; [x['RegionID']] raises [KeyError] when the
    column is missing. *)
Definition zillow_listing_id (x : Row) : option value :=
  key ← x !! "RegionID";
  date ← x !! "date";
  Some (listing_id_of "zillow" key date).

Definition zillow_defaults (df : DataFrame) : DataFrame :=
  assign "tax" (fun _ => VNull)
    (assign "sqft" (fun _ => VNull)
      (assign "bathrooms" (fun _ => VNull)
        (assign "bedrooms" (fun _ => VNull)
          (assign "ownership" (fun _ => VStr "unknown")
            (assign "sale_type" (fun _ => VStr "sale")
              (assign "property_type" (fun _ => VStr "condo") df)))))).

(** [id_vars] and [date_cols] of lines 44-48. *)
Definition zillow_ids (df : DataFrame) : list string :=
  filter (fun c => c ∈ columns df) zillow_id_vars.

Definition zillow_date_cols (df : DataFrame) : list string :=
  filter (fun c => c ∉ zillow_ids df) (columns df).

(** The body of the [try] block. *)
Definition zillow_body (df : DataFrame) : option DataFrame :=
  let id_vars := zillow_ids df in
  let date_cols := zillow_date_cols df in
  let df_long := melt id_vars date_cols df in
  df_clean ← assign_try "date" (fun r => to_datetime_cell (cell r "date")) df_long;
  let df_clean :=
    assign "price" (fun r => to_numeric_coerce (cell r "price")) df_clean in
  let df_clean := dropna "price" df_clean in
  df_clean ← apply_assign "listing_id" zillow_listing_id df_clean;
  let df_clean :=
    rename [("RegionName", "city"); ("StateName", "region")] df_clean in
  Some (select listing_columns (zillow_defaults df_clean)).

(** Any exception in the body is caught and an empty frame returned. *)
Definition clean_zillow_data (df : DataFrame) : DataFrame :=
  if df_empty df then empty_frame
  else default empty_frame (zillow_body df).

(** *** [clean_redfin_data] *)

(** The lambda of lines 115-120; [x.get('region', '')]. *)
Definition redfin_listing_id (x : Row) : option value :=
  period ← x !! "period_end";
  Some (listing_id_of "redfin" (default (VStr "") (x !! "region")) period).

Definition redfin_rename_map : list (string * string) :=
  [ ("period_end", "date"); ("region", "city"); ("state_code", "region");
    ("median_sale_price", "price"); ("property_type", "property_type") ].

Definition redfin_defaults (df : DataFrame) : DataFrame :=
  assign "sqft" (fun _ => VNull)
    (assign "bathrooms" (fun _ => VNull)
      (assign "bedrooms" (fun _ => VNull)
        (assign "tax" (fun _ => VNull)
          (assign "ownership" (fun _ => VStr "unknown")
            (assign "sale_type" (fun _ => VStr "sale") df))))).

(** [column.str.lower()]: the accessor exists on a column that holds
    strings and raises otherwise; a cell that is no string becomes NaN. *)
Definition lower_cell (v : value) : value :=
  match v with
  | VStr s => VStr (str_lower s)
  | _ => VNull
  end.

Definition str_lower_column (c : string) (df : DataFrame) : option DataFrame :=
  if existsb (fun r => is_str (cell r c)) (rows df)
  then Some (assign c (fun r => lower_cell (cell r c)) df)
  else None.

(** [column.replace({...})] with the three labels of lines 144-148: a
    cell equal to a key is replaced, every other cell is left as it is. *)
Definition property_type_map : list (string * string) :=
  [ ("single family residential", "independent");
    ("condo/co-op", "condo");
    ("townhouse", "townhouse") ].

Fixpoint lookup_label (m : list (string * string)) (s : string)
  : option string :=
  match m with
  | [] => None
  | (k, v) :: m => if decide (s = k) then Some v else lookup_label m s
  end.

Definition replace_cell (m : list (string * string)) (v : value) : value :=
  match v with
  | VStr s => from_option VStr v (lookup_label m s)
  | _ => v
  end.

Definition redfin_property_type (df : DataFrame) : option DataFrame :=
  if decide ("property_type" ∈ columns df) then
    df ← str_lower_column "property_type" df;
    Some (assign "property_type"
            (fun r => replace_cell property_type_map (cell r "property_type")) df)
  else Some (assign "property_type" (fun _ => VStr "other") df).

Definition redfin_body (df : DataFrame) : option DataFrame :=
  (* df_clean['period_end'] raises KeyError without the column *)
  if decide ("period_end" ∈ columns df) then
    df_clean ← assign_try "period_end"
                 (fun r => to_datetime_cell (cell r "period_end")) df;
    df_clean ← apply_assign "listing_id" redfin_listing_id df_clean;
    let df_clean := rename redfin_rename_map df_clean in
    df_clean ← redfin_property_type (redfin_defaults df_clean);
    Some (drop_duplicates "listing_id" (select listing_columns df_clean))
  else None.

Definition clean_redfin_data (df : DataFrame) : DataFrame :=
  if df_empty df then empty_frame
  else default empty_frame (redfin_body df).

(** *** [validate_data] *)

(** The price mask [(price >= lo) & (price <= hi)] of one record. *)
Definition in_bounds (field : string) (v : value) : option bool :=
  let '(lo, hi) := validation_rules field in
  a ← cell_ge v lo; b ← cell_le v hi; Some (a && b).

(** The mask [(x < lo) | (x > hi)] of the soft rules. *)
Definition out_of_bounds (field : string) (v : value) : option bool :=
  let '(lo, hi) := validation_rules field in
  a ← cell_lt v lo; b ← cell_gt v hi; Some (a || b).

(** [df[mask]]: the mask is computed over the whole column, so one cell
    that cannot be compared raises for the whole call; otherwise the
    records whose mask is true are kept, in order. *)
Fixpoint filter_try (p : Row -> option bool) (rs : list Row)
  : option (list Row) :=
  match rs with
  | [] => Some []
  | r :: rs =>
      keep ← p r;
      rest ← filter_try p rs;
      Some (if keep : bool then r :: rest else rest)
  end.

Definition filter_in_bounds (field : string) (df : DataFrame)
  : option DataFrame :=
  if decide (field ∈ columns df) then
    rs ← filter_try (fun r => in_bounds field (cell r field)) (rows df);
    Some (Frame (columns df) rs)
  else Some df.

(** [df.loc[mask, field] = None] *)
Definition null_if_out (field : string) (r : Row) : option Row :=
  bad ← out_of_bounds field (cell r field);
  Some (if bad : bool then <[field := VNull]> r else r).

Definition null_out_of_bounds (field : string) (df : DataFrame)
  : option DataFrame :=
  if decide (field ∈ columns df) then
    rs ← mapM (null_if_out field) (rows df);
    Some (Frame (columns df) rs)
  else Some df.

(** [None] when a comparison raises [TypeError]; [validate_data] does not
    catch it. *)
Definition validate_data (df : DataFrame) : option DataFrame :=
  df_valid ← filter_in_bounds "price" df;
  df_valid ← null_out_of_bounds "sqft" df_valid;
  df_valid ← null_out_of_bounds "bedrooms" df_valid;
  null_out_of_bounds "bathrooms" df_valid.

End DataCleaner.

(* ===================================================================== *)
(** ** [DataLoader]                                                       *)
(* ===================================================================== *)

(** The bound parameters of the INSERT statement (lines 254-267). *)
Record Params := {
  p_listing_id : value;
  p_date : value;
  p_region : value;
  p_city : value;
  p_property_type : value;
  p_price : option float;
  p_tax : option float;
  p_sale_type : value;
  p_ownership : value;
  p_bedrooms : option Z;
  p_bathrooms : option float;
  p_sqft : option Z
}.

(** A row of table [listings] under its key [listing_id]: the eleven other
    columns the statement writes, and [updated_at]. *)
Record Listing := {
  l_date : value;
  l_region : value;
  l_city : value;
  l_property_type : value;
  l_price : option float;
  l_tax : option float;
  l_sale_type : value;
  l_ownership : value;
  l_bedrooms : option Z;
  l_bathrooms : option float;
  l_sqft : option Z;
  l_updated_at : option Z
}.

(** The database: table [listings], unique on [listing_id], and a logical
    clock that counts the transactions begun ([CURRENT_TIMESTAMP] reads
    it). *)
Record Store := { listings : gmap string Listing; clock : Z }.

(** The table definition is not part of the repository: which statements
    the table refuses (constraints, types), and what [updated_at] holds
    after an INSERT that does not mention it. *)
Class Schema := {
  db_rejects : Params -> bool;
  updated_at_default : Z -> option Z
}.

(** [float(v)] and [int(v)]; [None] is an exception. *)
Definition py_float `{Externals} (v : value) : option float :=
  match v with
  | VInt z => Some (float_of_Z z)
  | VFloat x => Some x
  | VStr s => float_of_str s
  | VNull | VTime _ => None
  end.

Definition Qtrunc (q : Q) : Z :=
  if Qle_bool 0 q then Qfloor q else Qceiling q.

Definition py_int `{Externals} (v : value) : option Z :=
  match v with
  | VInt z => Some z
  | VFloat (Fin q) => Some (Qtrunc q)
  | VFloat _ => None
  | VStr s => int_of_str s
  | VNull | VTime _ => None
  end.

(** [conv(row[c]) if pd.notna(row.get(c)) else None] *)
Definition convert {A} (conv : value -> option A) (v : value)
  : option (option A) :=
  if notna v then Some <$> conv v else Some None.

Record LoadState := {
  store : Store;
  records_loaded : nat;
  records_failed : nat
}.

Section DataLoader.
Context `{Externals} `{Schema}.

(** The parameter dict of lines 254-267, built in order; [row['c']]
    raises [KeyError] on a missing label, [row.get('c')] gives [None]. *)
Definition bind_params (row : Row) : option Params :=
  listing_id ← row !! "listing_id";
  date ← row !! "date";
  region ← row !! "region";
  let city := row_get row "city" in
  let property_type := row_get row "property_type" in
  raw_price ← row !! "price";
  price ← convert py_float raw_price;
  tax ← convert py_float (row_get row "tax");
  let sale_type := row_get row "sale_type" in
  let ownership := row_get row "ownership" in
  bedrooms ← convert py_int (row_get row "bedrooms");
  bathrooms ← convert py_float (row_get row "bathrooms");
  sqft ← convert py_int (row_get row "sqft");
  Some {| p_listing_id := listing_id; p_date := date; p_region := region;
          p_city := city; p_property_type := property_type;
          p_price := price; p_tax := tax;
          p_sale_type := sale_type; p_ownership := ownership;
          p_bedrooms := bedrooms; p_bathrooms := bathrooms;
          p_sqft := sqft |}.

Definition inserted (p : Params) (now : Z) : Listing :=
  {| l_date := p_date p; l_region := p_region p; l_city := p_city p;
     l_property_type := p_property_type p; l_price := p_price p;
     l_tax := p_tax p; l_sale_type := p_sale_type p;
     l_ownership := p_ownership p; l_bedrooms := p_bedrooms p;
     l_bathrooms := p_bathrooms p; l_sqft := p_sqft p;
     l_updated_at := updated_at_default now |}.

(** [DO UPDATE SET price = EXCLUDED.price, updated_at = CURRENT_TIMESTAMP] *)
Definition updated (old : Listing) (p : Params) (now : Z) : Listing :=
  {| l_date := l_date old; l_region := l_region old; l_city := l_city old;
     l_property_type := l_property_type old; l_price := p_price p;
     l_tax := l_tax old; l_sale_type := l_sale_type old;
     l_ownership := l_ownership old; l_bedrooms := l_bedrooms old;
     l_bathrooms := l_bathrooms old; l_sqft := l_sqft old;
     l_updated_at := Some now |}.

(** [INSERT ... ON CONFLICT (listing_id) DO UPDATE ...] on the table.
    The key column holds text: a [listing_id] that is no string is
    refused, as is whatever the schema rejects. *)
Definition upsert (tbl : gmap string Listing) (now : Z) (p : Params)
  : option (gmap string Listing) :=
  match p_listing_id p with
  | VStr k =>
      if db_rejects p then None
      else match tbl !! k with
           | Some old => Some (<[k := updated old p now]> tbl)
           | None => Some (<[k := inserted p now]> tbl)
           end
  | _ => None
  end.

(** The key and parameters under which a record is written, when its
    write goes through; it does not depend on the table. *)
Definition written (row : Row) : option (string * Params) :=
  p ← bind_params row;
  match p_listing_id p with
  | VStr k => if db_rejects p then None else Some (k, p)
  | _ => None
  end.

(** The record's write raises (in Python or in the database). *)
Definition write_fails (row : Row) : bool :=
  match written row with None => true | Some _ => false end.

(** One turn of the loop of lines 237-278: a transaction of its own,
    committed when the statement went through and rolled back on any
    exception. *)
Definition write (db : Store) (row : Row) : option (gmap string Listing) :=
  p ← bind_params row;
  upsert (listings db) (clock db) p.

Definition load_record (st : LoadState) (row : Row) : LoadState :=
  let db := store st in
  match write db row with
  | Some tbl =>
      {| store := {| listings := tbl; clock := clock db + 1 |};
         records_loaded := S (records_loaded st);
         records_failed := records_failed st |}
  | None =>
      {| store := {| listings := listings db; clock := clock db + 1 |};
         records_loaded := records_loaded st;
         records_failed := S (records_failed st) |}
  end.

(** [load_listings]: the store afterwards, the returned [records_loaded]
    and the [records_failed] that the closing log line reports. The early
    return on [df.empty] reports no failure count; it is 0 here. *)
Definition start (db : Store) : LoadState :=
  {| store := db; records_loaded := 0; records_failed := 0 |}.

Definition load_listings (db : Store) (df : DataFrame) : LoadState :=
  if df_empty df then start db
  else fold_left load_record (rows df) (start db).

(** The keys the good records of a batch are written under. *)
Definition written_ids (rs : list Row) : list string :=
  omap (fun r => fst <$> written r) rs.

End DataLoader.

(** Two rows of [listings] that agree on every column the UPDATE branch
    leaves alone. *)
Definition same_fixed (a b : Listing) : Prop :=
  l_date a = l_date b ∧ l_region a = l_region b ∧ l_city a = l_city b ∧
  l_property_type a = l_property_type b ∧ l_tax a = l_tax b ∧
  l_sale_type a = l_sale_type b ∧ l_ownership a = l_ownership b ∧
  l_bedrooms a = l_bedrooms b ∧ l_bathrooms a = l_bathrooms b ∧
  l_sqft a = l_sqft b.

(** A row without its [updated_at]. *)
Definition data_of (l : Listing) : Listing :=
  {| l_date := l_date l; l_region := l_region l; l_city := l_city l;
     l_property_type := l_property_type l; l_price := l_price l;
     l_tax := l_tax l; l_sale_type := l_sale_type l;
     l_ownership := l_ownership l; l_bedrooms := l_bedrooms l;
     l_bathrooms := l_bathrooms l; l_sqft := l_sqft l;
     l_updated_at := None |}.

(** Two tables with the same keys whose rows agree on the fixed columns
    everywhere, and on the price outside the keys [K]. *)
Definition agree (K : list string) (s t : gmap string Listing) : Prop :=
  ∀ id, match s !! id, t !! id with
        | Some a, Some b => same_fixed a b ∧ (id ∉ K → l_price a = l_price b)
        | None, None => True
        | _, _ => False
        end.


(* ===================================================================== *)
(** ** Reference externals                                                *)
(* ===================================================================== *)

(** A concrete instance for closed examples. It agrees with pandas and
    CPython on what the examples use: ISO dates [YYYY-MM-DD], decimal
    numerals, integral floats. *)
Module Reference.

Definition digit_of (c : ascii) : option Z :=
  let n := Z.of_N (N_of_ascii c) in
  if (48 <=? n) && (n <=? 57) then Some (n - 48) else None.

(** A non-empty run of decimal digits. *)
Fixpoint digits_go (acc : Z) (s : string) : option Z :=
  match s with
  | EmptyString => Some acc
  | String c s => d ← digit_of c; digits_go (10 * acc + d) s
  end.

Definition digits (s : string) : option Z :=
  match s with
  | EmptyString => None
  | _ => digits_go 0 s
  end.

Definition parse_int (s : string) : option Z :=
  match s with
  | String "-" s => Z.opp <$> digits s
  | _ => digits s
  end.

(** Days since 1970-01-01 of a civil date, and back (proleptic
    Gregorian calendar). *)
Definition days_from_civil (y m d : Z) : Z :=
  let y := if m <=? 2 then y - 1 else y in
  let era := y / 400 in
  let yoe := y - era * 400 in
  let doy := (153 * (if 2 <? m then m - 3 else m + 9) + 2) / 5 + d - 1 in
  let doe := yoe * 365 + yoe / 4 - yoe / 100 + doy in
  era * 146097 + doe - 719468.

Definition civil_from_days (z : Z) : Z * Z * Z :=
  let z := z + 719468 in
  let era := z / 146097 in
  let doe := z - era * 146097 in
  let yoe := (doe - doe / 1460 + doe / 36524 - doe / 146096) / 365 in
  let doy := doe - (365 * yoe + yoe / 4 - yoe / 100) in
  let mp := (5 * doy + 2) / 153 in
  let d := doy - (153 * mp + 2) / 5 + 1 in
  let m := if mp <? 10 then mp + 3 else mp - 9 in
  (if m <=? 2 then yoe + era * 400 + 1 else yoe + era * 400, m, d).

Definition ns_per_day : Z := 86400 * 10 ^ 9.

Definition substring (i n : nat) (s : string) : string :=
  String.substring i n s.

(** [YYYY-MM-DD] of a real calendar day. *)
Definition parse_iso_date (s : string) : option Z :=
  if negb (String.length s =? 10)%nat then None else
  if negb (bool_decide (substring 4 1 s = "-") && bool_decide (substring 7 1 s = "-"))
  then None else
  y ← digits (substring 0 4 s);
  m ← digits (substring 5 2 s);
  d ← digits (substring 8 2 s);
  let days := days_from_civil y m d in
  if bool_decide (civil_from_days days = (y, m, d))
  then Some (days * ns_per_day) else None.

(** [n] as at least [w] decimal digits, zero-padded. *)
Fixpoint zeros (n : nat) : string :=
  match n with O => "" | S n => String "0" (zeros n) end.

Definition padded (w : nat) (n : Z) : string :=
  let s := pretty n in
  zeros (w - String.length s) +:+ s.

Definition format_timestamp (t : Z) : string :=
  let days := t / ns_per_day in
  let rest := t mod ns_per_day in
  let '(y, m, d) := civil_from_days days in
  let secs := rest / 10 ^ 9 in
  let frac := rest mod 10 ^ 9 in
  padded 4 y +:+ "-" +:+ padded 2 m +:+ "-" +:+ padded 2 d +:+ " " +:+
  padded 2 (secs / 3600) +:+ ":" +:+ padded 2 (secs / 60 mod 60) +:+ ":" +:+
  padded 2 (secs mod 60) +:+
  (if frac =? 0 then ""
   else if frac mod 1000 =? 0 then "." +:+ padded 6 (frac / 1000)
   else "." +:+ padded 9 frac).

(** [str] of a float: integral values print as [n.0]; other finite values
    are shown as a fraction, which CPython does not do (no example
    formats one). *)
Definition format_float (x : float) : string :=
  match x with
  | PInf => "inf"
  | NInf => "-inf"
  | Fin q =>
      if bool_decide (Qden (Qred q) = 1%positive)
      then pretty (Qnum (Qred q)) +:+ ".0"
      else pretty (Qnum (Qred q)) +:+ "/" +:+ pretty (Zpos (Qden (Qred q)))
  end.

(** Decimal numerals [[-]digits[.digits]]. *)
Fixpoint split_dot (s : string) : string * option string :=
  match s with
  | EmptyString => (EmptyString, None)
  | String "." s => (EmptyString, Some s)
  | String c s => let '(a, b) := split_dot s in (String c a, b)
  end.

Definition parse_decimal (s : string) : option float :=
  let '(neg, body) :=
    match s with String "-" s' => (true, s') | _ => (false, s) end in
  let '(ip, fp) := split_dot body in
  i ← digits ip;
  q ← match fp with
      | None => Some (inject_Z i)
      | Some f =>
          n ← digits f;
          Some (Qplus (inject_Z i)
                      (Qmake n (Z.to_pos (10 ^ Z.of_nat (String.length f)))))
      end;
  Some (Fin (if neg : bool then Qopp q else q)).

Definition parse_datetime (v : value) : option Z :=
  match v with
  | VStr s => parse_iso_date s
  | VTime t | VInt t => Some t
  | _ => None
  end.

#[export] Instance externals : Externals := {|
  to_datetime := parse_datetime;
  str_timestamp := format_timestamp;
  str_float := format_float;
  to_numeric_str := parse_decimal;
  float_of_str := parse_decimal;
  int_of_str := parse_int
|}.

(** Modelled from the spec: the definition of table [listings] is not
    among the sources. Per the data model every persisted record has
    non-null [price], [region] and [period], so the three columns are
    taken as NOT NULL; [updated_at] defaults to the time of the insert. *)
Definition rejects (p : Params) : bool :=
  negb (notna (p_date p)) || negb (notna (p_region p))
  || negb (bool_decide (is_Some (p_price p))).

#[export] Instance schema : Schema := {|
  db_rejects := rejects;
  updated_at_default := fun now => Some now
|}.

End Reference.


(* ===================================================================== *)
(** ** The validation rules as the specification words them               *)
(* ===================================================================== *)

(** The representation invariant of a frame: every record is defined on
    exactly the labels of the frame. *)
Definition wf_frame (df : DataFrame) : Prop :=
  Forall (fun r : Row => dom r =@{gset string} list_to_set (columns df))
         (rows df).

(** A cell that can be compared with a number: a number or a null. *)
Definition numeric_cell (v : value) : bool :=
  match v with VStr _ | VTime _ => false | _ => true end.

Definition ruled_columns : list string :=
  ["price"; "sqft"; "bedrooms"; "bathrooms"].

(** The four ruled columns hold numbers and nulls only. *)
Definition comparable (df : DataFrame) : Prop :=
  Forall (fun r : Row =>
            Forall (fun c => numeric_cell (cell r c) = true) ruled_columns)
         (rows df).

(** The cell is a number within the inclusive bounds [[lo, hi]]. *)
Definition in_range (lo hi : Z) (v : value) : bool :=
  match number v with
  | Some x => float_leb (float_of_Z lo) x && float_leb x (float_of_Z hi)
  | None => false
  end.

(** The cell is a number outside the inclusive bounds. *)
Definition out_of_range (lo hi : Z) (v : value) : bool :=
  match number v with
  | Some x => negb (float_leb (float_of_Z lo) x && float_leb x (float_of_Z hi))
  | None => false
  end.

(** Soft rule: the offending field is nulled, the record is kept. *)
Definition spec_soft_rule (field : string) (lo hi : Z) (r : Row) : Row :=
  if out_of_range lo hi (cell r field) then <[field := VNull]> r else r.

Definition spec_soft_rules (r : Row) : Row :=
  spec_soft_rule "bathrooms" 0 15
    (spec_soft_rule "bedrooms" 0 20
      (spec_soft_rule "sqft" 100 50000 r)).

(** Hard rule: a record whose price is not within [[0, 100_000_000]] is
    dropped. The kept records pass through the soft rules. *)
Definition spec_validate (df : DataFrame) : DataFrame :=
  Frame (columns df)
        (spec_soft_rules <$>
           filter (fun r => in_range 0 100000000 (cell r "price") = true)
                  (rows df)).

(* ===================================================================== *)
(** ** The records the wide-format adapter builds                         *)
(* ===================================================================== *)

(** The labels [clean_zillow_data] returns: the twelve listing columns,
    without [region] or [city] when the source has no [StateName] or
    [RegionName]. They depend on the labels of the source only, so they are
    read off a run of the frame operations on a frame without records. *)
Definition zillow_out_columns_of (cs : list string) : list string :=
  columns
    (select listing_columns
       (zillow_defaults
          (rename [("RegionName", "city"); ("StateName", "region")]
                  (Frame cs [])))).

Definition zillow_out_columns (df : DataFrame) : list string :=
  zillow_out_columns_of
    (add_label "listing_id"
       (add_label "price"
          (add_label "date" (zillow_ids df ++ ["date"; "price"])))).

(** Lines 60-70 on one melted record: the date parsed, the price made
    numeric, the identifier added. *)
Definition date_step `{Externals} (l : Row) : option Row :=
  v ← to_datetime_cell (cell l "date"); Some (<["date" := v]> l).

Definition price_step `{Externals} (d : Row) : Row :=
  <["price" := to_numeric_coerce (cell d "price")]> d.

Definition id_step `{Externals} (x : Row) : option Row :=
  v ← zillow_listing_id x; Some (<["listing_id" := v]> x).

(** What lines 73-92 make of one melted record that has its identifier:
    relabelled, given the defaults, cut to the listing columns. *)
Definition zillow_finish (cols : list string) (x : Row) : Row :=
  restrict cols
    (<["tax" := VNull]> (<["sqft" := VNull]> (<["bathrooms" := VNull]>
      (<["bedrooms" := VNull]> (<["ownership" := VStr "unknown"]>
        (<["sale_type" := VStr "sale"]> (<["property_type" := VStr "condo"]>
          (rename_row "StateName" "region"
             (rename_row "RegionName" "city" x))))))))).

(** The record built from entity [r] and date column [c], whose label
    parses to [t], under natural key [key]. *)
Definition zillow_record `{Externals} (df : DataFrame) (r : Row) (c : string)
    (t : Z) (key : value) : Row :=
  zillow_finish (zillow_out_columns df)
    (<["listing_id" := listing_id_of "zillow" key (VTime t)]>
       (<["price" := to_numeric_coerce (cell r c)]>
          (<["date" := VTime t]> (melt_row (zillow_ids df) c r)))).

(* ===================================================================== *)
(** ** The records the tabular adapter builds                             *)
(* ===================================================================== *)

(** Lines 112-120 on one record: the period parsed, the identifier
    added. *)
Definition period_step `{Externals} (r : Row) : option Row :=
  v ← to_datetime_cell (cell r "period_end"); Some (<["period_end" := v]> r).

Definition redfin_id_step `{Externals} (x : Row) : option Row :=
  v ← redfin_listing_id x; Some (<["listing_id" := v]> x).

(** The relabelling of one record. *)
Definition rename_rows (m : list (string * string)) (x : Row) : Row :=
  fold_left (fun r p => rename_row p.1 p.2 r) m x.

(** The defaults of lines 134-139 on one record. *)
Definition redfin_default_cells (x : Row) : Row :=
  <["sqft" := VNull]> (<["bathrooms" := VNull]> (<["bedrooms" := VNull]>
    (<["tax" := VNull]> (<["ownership" := VStr "unknown"]>
      (<["sale_type" := VStr "sale"]> x))))).

(** The controlled vocabulary of the data model. *)
Definition controlled_vocabulary : list string :=
  [ "independent"; "condo"; "townhouse"; "apartment"; "other" ].

(** The category lines 142-150 give a record: the source label in lower
    case, replaced when it is one of the three mapped labels, when the
    source has the column; ["other"] when it has not. *)
Definition redfin_category (has_column : bool) (label : value) : value :=
  if has_column then replace_cell property_type_map (lower_cell label)
  else VStr "other".

(* ===================================================================== *)
(** ** Sample inputs                                                      *)
(* ===================================================================== *)

Module Samples.

Definition record (cells : list (string * value)) : Row := list_to_map cells.

Definition zillow_labels : list string :=
  [ "RegionID"; "SizeRank"; "RegionName"; "RegionType"; "StateName";
    "2020-01-31"; "2020-02-29"; "2020-03-31" ].

Definition new_york (p1 p2 p3 : value) : Row :=
  record [ ("RegionID", VInt 394913); ("SizeRank", VInt 1);
           ("RegionName", VStr "New York, NY"); ("RegionType", VStr "msa");
           ("StateName", VStr "NY");
           ("2020-01-31", p1); ("2020-02-29", p2); ("2020-03-31", p3) ].

(** One metro area, three months, every value present. *)
Definition zillow_one : DataFrame :=
  Frame zillow_labels
    [ new_york (VInt 500000) (VInt 505000) (VInt 510000) ].

(** The same with no value for February. *)
Definition zillow_gap : DataFrame :=
  Frame zillow_labels [ new_york (VInt 500000) VNull (VInt 510000) ].

(** The national row of the metro file: it has no state. *)
Definition zillow_national : DataFrame :=
  Frame zillow_labels
    [ record [ ("RegionID", VInt 102001); ("SizeRank", VInt 0);
               ("RegionName", VStr "United States");
               ("RegionType", VStr "country"); ("StateName", VNull);
               ("2020-01-31", VInt 250000); ("2020-02-29", VInt 251000);
               ("2020-03-31", VInt 252000) ] ].

(** A file in which one metro area occurs on two lines. *)
Definition zillow_twice : DataFrame :=
  Frame zillow_labels
    [ new_york (VInt 500000) (VInt 505000) (VInt 510000);
      new_york (VInt 500000) (VInt 505000) (VInt 510000) ].

Definition redfin_labels : list string :=
  [ "period_end"; "region"; "state_code"; "property_type";
    "median_sale_price" ].

(** One row of the state market tracker. *)
Definition redfin_multi_family : DataFrame :=
  Frame redfin_labels
    [ record [ ("period_end", VStr "2020-01-31"); ("region", VStr "Florida");
               ("state_code", VStr "FL");
               ("property_type", VStr "Multi-Family (2-4 Unit)");
               ("median_sale_price", VInt 300000) ] ].

(** A listing record, as the adapters emit them. *)
Definition listing (id : string) (region price bedrooms : value) : Row :=
  record [ ("listing_id", VStr id); ("date", VTime 1580428800000000000);
           ("region", region); ("city", VStr "Miami");
           ("property_type", VStr "condo"); ("price", price);
           ("tax", VNull); ("sale_type", VStr "sale");
           ("ownership", VStr "unknown"); ("bedrooms", bedrooms);
           ("bathrooms", VNull); ("sqft", VNull) ].

(** Prices at the bound and one above it, and twenty-one bedrooms. *)
Definition boundary_batch : DataFrame :=
  Frame listing_columns
    [ listing "a" (VStr "FL") (VInt 100000000) VNull;
      listing "b" (VStr "FL") (VInt 100000001) VNull;
      listing "c" (VStr "FL") (VInt 250000) (VInt 21) ].

(** Three records; the second has no region, which the table refuses. *)
Definition one_bad_batch : DataFrame :=
  Frame listing_columns
    [ listing "a" (VStr "FL") (VInt 300000) VNull;
      listing "b" VNull (VInt 310000) VNull;
      listing "c" (VStr "FL") (VInt 320000) VNull ].

Definition one_record_batch : DataFrame :=
  Frame listing_columns [ listing "a" (VStr "FL") (VInt 300000) VNull ].

(** A later price for listing ["a"], with other cells changed too. *)
Definition repriced : Row :=
  record [ ("listing_id", VStr "a"); ("date", VTime 1585612800000000000);
           ("region", VStr "GA"); ("city", VStr "Atlanta");
           ("property_type", VStr "townhouse"); ("price", VInt 333000);
           ("tax", VInt 1200); ("sale_type", VStr "sale");
           ("ownership", VStr "unknown"); ("bedrooms", VInt 3);
           ("bathrooms", VInt 2); ("sqft", VInt 1500) ].

Definition repriced_params : Params :=
  {| p_listing_id := VStr "a"; p_date := VTime 1585612800000000000;
     p_region := VStr "GA"; p_city := VStr "Atlanta";
     p_property_type := VStr "townhouse";
     p_price := Some (float_of_Z 333000); p_tax := Some (float_of_Z 1200);
     p_sale_type := VStr "sale"; p_ownership := VStr "unknown";
     p_bedrooms := Some 3; p_bathrooms := Some (float_of_Z 2);
     p_sqft := Some 1500 |}.

(** Listing ["a"] as [one_record_batch] leaves it in an empty table. *)
Definition stored_a : Listing :=
  {| l_date := VTime 1580428800000000000; l_region := VStr "FL";
     l_city := VStr "Miami"; l_property_type := VStr "condo";
     l_price := Some (float_of_Z 300000); l_tax := None;
     l_sale_type := VStr "sale"; l_ownership := VStr "unknown";
     l_bedrooms := None; l_bathrooms := None; l_sqft := None;
     l_updated_at := Some 0 |}.

(** Two rows and no column: [df.empty] holds, [len(df)] is 2. *)
Definition no_columns : DataFrame := Frame [] [ ∅; ∅ ].

Definition empty_store : Store := {| listings := ∅; clock := 0 |}.

End Samples.

(* ===================================================================== *)
(** ** Properties of the loader                                           *)
(* ===================================================================== *)

Section LoaderFacts.
Context `{Externals} `{Schema}.

Implicit Types (db : Store) (st : LoadState) (row : Row)
  (rs : list Row) (tbl : gmap string Listing).
Local Open Scope nat_scope.

Lemma write_written db row :
  write db row =
    '(k, p) ← written row;
    Some (match listings db !! k with
          | Some old => <[k := updated old p (clock db)]> (listings db)
          | None => <[k := inserted p (clock db)]> (listings db)
          end).
Proof.
  unfold write, written, upsert.
  destruct (bind_params row) as [p|]; simpl; [|done].
  destruct (p_listing_id p); simpl; try done.
  destruct (db_rejects p); simpl; [done|].
  by destruct (listings db !! s).
Qed.

Lemma write_fails_spec db row :
  write db row = None ↔ write_fails row = true.
Proof.
  rewrite write_written. unfold write_fails.
  destruct (written row) as [[k p]|]; simpl; [|done].
  split; [|done]. by destruct (listings db !! k).
Qed.

Lemma load_record_good st row k p :
  written row = Some (k, p) →
  load_record st row =
    {| store := {| listings :=
                     match listings (store st) !! k with
                     | Some old => <[k := updated old p (clock (store st))]> (listings (store st))
                     | None => <[k := inserted p (clock (store st))]> (listings (store st))
                     end;
                   clock := clock (store st) + 1 |};
       records_loaded := S (records_loaded st);
       records_failed := records_failed st |}.
Proof.
  intros Hw. unfold load_record. rewrite write_written, Hw. reflexivity.
Qed.

Lemma load_record_bad st row :
  written row = None →
  load_record st row =
    {| store := {| listings := listings (store st);
                   clock := clock (store st) + 1 |};
       records_loaded := records_loaded st;
       records_failed := S (records_failed st) |}.
Proof.
  intros Hw. unfold load_record. rewrite write_written, Hw. reflexivity.
Qed.

(** Every record moves exactly one of the two counters by one. *)
Lemma load_record_counts st row :
  records_loaded (load_record st row) + records_failed (load_record st row)
  = S (records_loaded st + records_failed st)
  ∧ records_loaded st ≤ records_loaded (load_record st row)
  ∧ records_failed st ≤ records_failed (load_record st row).
Proof.
  destruct (written row) as [[k p]|] eqn:Hw.
  - rewrite (load_record_good _ _ _ _ Hw). simpl. lia.
  - rewrite (load_record_bad _ _ Hw). simpl. lia.
Qed.

Lemma fold_counts rs st :
  let st' := fold_left load_record rs st in
  records_loaded st' + records_failed st'
  = records_loaded st + records_failed st + length rs.
Proof.
  revert st. induction rs as [|r rs IH]; intros st; simpl; [lia|].
  simpl in IH. rewrite IH.
  pose proof (load_record_counts st r). lia.
Qed.

Lemma fold_loaded rs st :
  records_loaded (fold_left load_record rs st)
  = records_loaded st + length (written_ids rs).
Proof.
  revert st. induction rs as [|r rs IH]; intros st; simpl; [lia|].
  rewrite IH. unfold written_ids. simpl.
  destruct (written r) as [[k p]|] eqn:Hw; simpl.
  - rewrite (load_record_good _ _ _ _ Hw). simpl.
    fold (written_ids rs). lia.
  - rewrite (load_record_bad _ _ Hw). simpl. reflexivity.
Qed.

Lemma written_ids_length rs : length (written_ids rs) ≤ length rs.
Proof.
  induction rs as [|r rs IH]; simpl; [lia|].
  unfold written_ids in *. simpl.
  destruct (written r); simpl; lia.
Qed.

Lemma written_ids_app rs1 rs2 :
  written_ids (rs1 ++ rs2) = written_ids rs1 ++ written_ids rs2.
Proof. apply omap_app. Qed.

Lemma written_ids_good rs :
  (∀ r, r ∈ rs → write_fails r = false) →
  length (written_ids rs) = length rs.
Proof.
  induction rs as [|r rs IH]; intros Hgood; [done|].
  unfold written_ids in *. simpl.
  pose proof (Hgood r ltac:(left)) as Hr. unfold write_fails in Hr.
  destruct (written r); [|done]. simpl. f_equal.
  apply IH. intros r' Hr'. apply Hgood. by right.
Qed.

(** *** What a batch does to one key *)

Lemma load_record_lookup_ne st row id :
  fst <$> written row ≠ Some id →
  listings (store (load_record st row)) !! id = listings (store st) !! id.
Proof.
  intros Hne. destruct (written row) as [[k p]|] eqn:Hw.
  - rewrite (load_record_good _ _ _ _ Hw). simpl.
    assert (k ≠ id) by (intros ->; by apply Hne).
    destruct (listings (store st) !! k); by rewrite lookup_insert_ne.
  - by rewrite (load_record_bad _ _ Hw).
Qed.

(** A key no good record of the batch carries keeps its row. *)
Lemma fold_untouched rs st id :
  id ∉ written_ids rs →
  listings (store (fold_left load_record rs st)) !! id
  = listings (store st) !! id.
Proof.
  revert st. induction rs as [|r rs IH]; intros st Hid; [done|].
  simpl. unfold written_ids in Hid. simpl in Hid.
  rewrite IH.
  - apply load_record_lookup_ne. intros Heq. rewrite Heq in Hid.
    apply Hid. by left.
  - intros Hin. apply Hid. destruct (fst <$> written r); [by right|done].
Qed.

Lemma load_record_keeps st row id :
  is_Some (listings (store st) !! id) →
  is_Some (listings (store (load_record st row)) !! id).
Proof.
  intros Hid. destruct (written row) as [[k p]|] eqn:Hw.
  - rewrite (load_record_good _ _ _ _ Hw). simpl.
    destruct (decide (k = id)) as [->|Hne].
    + destruct (listings (store st) !! id); by rewrite lookup_insert_eq.
    + destruct (listings (store st) !! k); by rewrite lookup_insert_ne.
  - by rewrite (load_record_bad _ _ Hw).
Qed.

(** No row is ever deleted. *)
Lemma fold_keeps rs st id :
  is_Some (listings (store st) !! id) →
  is_Some (listings (store (fold_left load_record rs st)) !! id).
Proof.
  revert st. induction rs as [|r rs IH]; intros st Hid; [done|].
  simpl. apply IH. by apply load_record_keeps.
Qed.

(** Right after a good record, its key holds its price. *)
Lemma load_record_price st row k p :
  written row = Some (k, p) →
  ∃ l, listings (store (load_record st row)) !! k = Some l
       ∧ l_price l = p_price p.
Proof.
  intros Hw. rewrite (load_record_good _ _ _ _ Hw). simpl.
  destruct (listings (store st) !! k);
    rewrite lookup_insert_eq; eexists; by split.
Qed.

Lemma fold_failed_good rs st :
  (∀ r, r ∈ rs → write_fails r = false) →
  records_failed (fold_left load_record rs st) = records_failed st.
Proof.
  intros Hgood.
  pose proof (fold_counts rs st) as Hc. simpl in Hc.
  pose proof (fold_loaded rs st) as Hl.
  rewrite (written_ids_good _ Hgood) in Hl. lia.
Qed.



(** *** The UPDATE branch *)

Lemma same_fixed_refl (a : Listing) : same_fixed a a.
Proof. by repeat split. Qed.

Lemma same_fixed_trans (a b c : Listing) :
  same_fixed a b → same_fixed b c → same_fixed a c.
Proof. unfold same_fixed. intros ? ?. destruct_and!. repeat split; congruence. Qed.

Lemma same_fixed_updated (old : Listing) p now :
  same_fixed (updated old p now) old.
Proof. by repeat split. Qed.

Lemma load_record_same_fixed st row id old :
  listings (store st) !! id = Some old →
  ∃ new, listings (store (load_record st row)) !! id = Some new
         ∧ same_fixed new old.
Proof.
  intros Hid. destruct (written row) as [[k p]|] eqn:Hw.
  - rewrite (load_record_good _ _ _ _ Hw). simpl.
    destruct (decide (k = id)) as [->|Hne].
    + rewrite Hid, lookup_insert_eq. eexists. split; [done|].
      apply same_fixed_updated.
    + exists old. split; [|apply same_fixed_refl].
      destruct (listings (store st) !! k); by rewrite lookup_insert_ne.
  - rewrite (load_record_bad _ _ Hw). simpl.
    exists old. split; [done|apply same_fixed_refl].
Qed.

Lemma fold_same_fixed rs st id old :
  listings (store st) !! id = Some old →
  ∃ new, listings (store (fold_left load_record rs st)) !! id = Some new
         ∧ same_fixed new old.
Proof.
  revert st old. induction rs as [|r rs IH]; intros st old Hid; simpl.
  - exists old. split; [done|apply same_fixed_refl].
  - destruct (load_record_same_fixed st r id old Hid) as (mid & Hmid & Hf).
    destruct (IH _ _ Hmid) as (new & Hnew & Hf').
    exists new. split; [done|]. by eapply same_fixed_trans.
Qed.

(** C6. A record that is written under an identifier the table already
    has changes the price and the updated-timestamp of that row and
    nothing else: the ten other columns of the row stay, and so does every
    row under another identifier. Over a whole batch, every row that was
    in the table keeps its ten fixed columns, and a row whose identifier
    no written record carries is not changed at all. *)
Theorem upsert_frame st row id p old :
  written row = Some (id, p) →
  listings (store st) !! id = Some old →
  (∃ new, listings (store (load_record st row)) !! id = Some new
          ∧ same_fixed new old
          ∧ l_price new = p_price p
          ∧ l_updated_at new = Some (clock (store st)))
  ∧ (∀ id', id' ≠ id →
       listings (store (load_record st row)) !! id'
       = listings (store st) !! id')
  ∧ (∀ df, ∃ new,
       listings (store (load_listings (store st) df)) !! id = Some new
       ∧ same_fixed new old)
  ∧ (∀ df id', id' ∉ written_ids (rows df) →
       listings (store (load_listings (store st) df)) !! id'
       = listings (store st) !! id').
Proof.
  intros Hw Hid. split; [|split; [|split]].
  - rewrite (load_record_good _ _ _ _ Hw). simpl.
    rewrite Hid, lookup_insert_eq. eexists. split; [done|].
    split; [apply same_fixed_updated|done].
  - intros id' Hne. apply load_record_lookup_ne.
    rewrite Hw. simpl. congruence.
  - intros df. unfold load_listings. destruct (df_empty df).
    + exists old. split; [done|apply same_fixed_refl].
    + by apply fold_same_fixed.
  - intros df id' Hid'. unfold load_listings. destruct (df_empty df); [done|].
    exact (fold_untouched _ (start (store st)) _ Hid').
Qed.

(** *** Replaying a batch *)

Lemma agree_replay rs : ∀ stA stB,
  agree (written_ids rs) (listings (store stB))
        (listings (store (fold_left load_record rs stA))) →
  agree [] (listings (store (fold_left load_record rs stB)))
        (listings (store (fold_left load_record rs stA))).
Proof.
  induction rs as [|r rs IH]; intros stA stB Hag; [done|].
  simpl. apply IH.
  change (fold_left load_record (r :: rs) stA)
    with (fold_left load_record rs (load_record stA r)) in Hag.
  set (T := listings (store (fold_left load_record rs (load_record stA r)))) in *.
  destruct (written r) as [[k p]|] eqn:Hw.
  - assert (Hids : written_ids (r :: rs) = k :: written_ids rs).
    { unfold written_ids. simpl. by rewrite Hw. }
    rewrite Hids in Hag.
    destruct (load_record_price stA r k p Hw) as (l0 & Hl0 & Hp0).
    destruct (fold_keeps rs (load_record stA r) k) as [b Hb];
      [by rewrite Hl0|]. fold T in Hb.
    pose proof (Hag k) as Hk. rewrite Hb in Hk.
    destruct (listings (store stB) !! k) as [a|] eqn:Ha; [|done].
    destruct Hk as [Hfix _].
    rewrite (load_record_good _ _ _ _ Hw). simpl. rewrite Ha.
    intros id. destruct (decide (id = k)) as [->|Hne].
    + rewrite lookup_insert_eq, Hb. split.
      * eapply same_fixed_trans; [apply same_fixed_updated|done].
      * intros Hlast. simpl. rewrite <- Hp0.
        unfold T in Hb. rewrite (fold_untouched _ _ _ Hlast) in Hb.
        congruence.
    + rewrite lookup_insert_ne by done.
      pose proof (Hag id) as Hi.
      destruct (listings (store stB) !! id), (T !! id); try done.
      destruct Hi as [? Hpr]. split; [done|].
      intros Hn. apply Hpr. rewrite elem_of_cons. tauto.
  - assert (Hids : written_ids (r :: rs) = written_ids rs).
    { unfold written_ids. simpl. by rewrite Hw. }
    rewrite Hids in Hag.
    by rewrite (load_record_bad _ _ Hw).
Qed.

Lemma agree_refl K tbl : agree K tbl tbl.
Proof.
  intros id. destruct (tbl !! id); [|done].
  split; [apply same_fixed_refl|done].
Qed.

Lemma agree_data (s t : gmap string Listing) :
  agree [] s t → data_of <$> s = data_of <$> t.
Proof.
  intros Hag. apply map_eq. intros id. rewrite !lookup_fmap.
  specialize (Hag id).
  destruct (s !! id) as [a|], (t !! id) as [b|]; try done. simpl.
  destruct Hag as [Hfix Hp].
  assert (Hprice : l_price a = l_price b) by (apply Hp; apply not_elem_of_nil).
  unfold same_fixed in Hfix. destruct_and!.
  destruct a, b; simpl in *. unfold data_of. simpl. by subst.
Qed.

(** C1, amended. Loading a batch a second time leaves the table with the
    same identifiers, hence the same number of rows, and the same values
    in all eleven data columns of every row; the two runs count the same
    records as loaded and as failed. The column [updated_at] is rewritten
    by the second run and is left out. *)
Theorem load_listings_replay db df :
  let once := load_listings db df in
  let twice := load_listings (store once) df in
  data_of <$> listings (store twice) = data_of <$> listings (store once)
  ∧ size (listings (store twice)) = size (listings (store once))
  ∧ records_loaded twice = records_loaded once
  ∧ records_failed twice = records_failed once.
Proof.
  simpl.
  assert (Hdata :
    data_of <$> listings (store (load_listings (store (load_listings db df)) df))
    = data_of <$> listings (store (load_listings db df))).
  { unfold load_listings. destruct (df_empty df); [done|].
    apply agree_data, agree_replay, agree_refl. }
  split; [done|]. split.
  { apply (f_equal size) in Hdata. by rewrite !map_size_fmap in Hdata. }
  unfold load_listings. destruct (df_empty df); [done|].
  pose proof (fold_counts (rows df) (start db)) as Hc1.
  pose proof (fold_counts (rows df)
    (start (store (fold_left load_record (rows df) (start db))))) as Hc2.
  pose proof (fold_loaded (rows df) (start db)) as Hl1.
  pose proof (fold_loaded (rows df)
    (start (store (fold_left load_record (rows df) (start db))))) as Hl2.
  simpl in *. lia.
Qed.

End LoaderFacts.

(* ===================================================================== *)
(** ** Properties of [validate_data]                                      *)
(* ===================================================================== *)

Section ValidateFacts.

Implicit Types (df : DataFrame) (r : Row) (v : value).

Lemma cell_insert_ne r c c' v : c ≠ c' → cell (<[c := v]> r) c' = cell r c'.
Proof. intros Hne. unfold cell. by rewrite lookup_insert_ne. Qed.

Lemma cell_insert_eq r c v : cell (<[c := v]> r) c = v.
Proof. unfold cell. by rewrite lookup_insert_eq. Qed.

Lemma in_bounds_numeric field v :
  numeric_cell v = true →
  in_bounds field v
  = Some (in_range (validation_rules field).1 (validation_rules field).2 v).
Proof.
  unfold in_bounds, in_range. destruct (validation_rules field) as [lo hi].
  by destruct v.
Qed.

Lemma out_of_bounds_numeric field v :
  numeric_cell v = true →
  out_of_bounds field v
  = Some (out_of_range (validation_rules field).1 (validation_rules field).2 v).
Proof.
  unfold out_of_bounds, out_of_range, cell_lt, cell_gt, float_ltb.
  destruct (validation_rules field) as [lo hi].
  destruct v; try done; simpl; intros _; f_equal;
    by rewrite negb_andb.
Qed.

(** A comparison that went through and said yes was on a number within
    the bounds. *)
Lemma in_bounds_true field v :
  in_bounds field v = Some true →
  in_range (validation_rules field).1 (validation_rules field).2 v = true.
Proof.
  intros Hb. destruct (numeric_cell v) eqn:Hn.
  - rewrite in_bounds_numeric in Hb by done. congruence.
  - unfold in_bounds in Hb. destruct (validation_rules field).
    by destruct v.
Qed.

Lemma filter_try_numeric (p : Row → option bool) (q : Row → bool) rs :
  (∀ r, r ∈ rs → p r = Some (q r)) →
  filter_try p rs = Some (filter (λ r, q r = true) rs).
Proof.
  induction rs as [|r rs IH]; intros Hp; [done|].
  simpl. rewrite (Hp r) by left. simpl.
  rewrite IH by (intros r' Hr'; apply Hp; by right). simpl.
  rewrite filter_cons. destruct (q r); by case_decide.
Qed.

Lemma filter_try_kept (p : Row → option bool) rs out :
  filter_try p rs = Some out →
  ∀ r, r ∈ out → r ∈ rs ∧ p r = Some true.
Proof.
  revert out. induction rs as [|r0 rs IH]; intros out Hf r Hr; simpl in Hf.
  - simplify_eq. by apply elem_of_nil in Hr.
  - destruct (p r0) as [keep|] eqn:Hp0; simpl in Hf; [|done].
    destruct (filter_try p rs) as [rest|]; simpl in Hf; [|done].
    simplify_eq. destruct keep.
    + apply elem_of_cons in Hr as [->|Hr].
      * split; [by left|done].
      * destruct (IH _ eq_refl r Hr). split; [by right|done].
    + destruct (IH _ eq_refl r Hr). split; [by right|done].
Qed.

Lemma mapM_total {A B} (f : A → option B) (g : A → B) (l : list A) :
  (∀ x, x ∈ l → f x = Some (g x)) → mapM f l = Some (g <$> l).
Proof.
  intros Hf. apply mapM_Some_2. induction l as [|x l IH]; simpl.
  - constructor.
  - constructor; [apply Hf; by left|].
    apply IH. intros y Hy. apply Hf. by right.
Qed.

Lemma wf_frame_lookup df r c :
  wf_frame df → r ∈ rows df → is_Some (r !! c) ↔ c ∈ columns df.
Proof.
  intros Hwf Hr. unfold wf_frame in Hwf. rewrite Forall_forall in Hwf.
  rewrite <- elem_of_dom, (Hwf r Hr). apply elem_of_list_to_set.
Qed.

Lemma comparable_cell df r c :
  comparable df → r ∈ rows df → c ∈ ruled_columns →
  numeric_cell (cell r c) = true.
Proof.
  intros Hcmp Hr Hc. unfold comparable in Hcmp.
  rewrite Forall_forall in Hcmp. specialize (Hcmp r Hr).
  rewrite Forall_forall in Hcmp. by apply Hcmp.
Qed.

Lemma soft_rule_lookup_ne field lo hi r c :
  c ≠ field → spec_soft_rule field lo hi r !! c = r !! c.
Proof.
  intros Hne. unfold spec_soft_rule.
  destruct (out_of_range lo hi (cell r field)); [|done].
  by rewrite lookup_insert_ne.
Qed.

Lemma soft_rule_cell_ne field lo hi r c :
  c ≠ field → cell (spec_soft_rule field lo hi r) c = cell r c.
Proof. intros. unfold cell. by rewrite soft_rule_lookup_ne. Qed.

Lemma soft_rule_absent field lo hi r :
  r !! field = None → spec_soft_rule field lo hi r = r.
Proof.
  intros Hr. unfold spec_soft_rule, cell. by rewrite Hr.
Qed.

(** One soft rule of the code against the rule as specified. *)
Lemma null_out_of_bounds_spec field df :
  (∀ r, r ∈ rows df → numeric_cell (cell r field) = true) →
  (field ∉ columns df → ∀ r, r ∈ rows df → r !! field = None) →
  null_out_of_bounds field df
  = Some (Frame (columns df)
            (spec_soft_rule field (validation_rules field).1
                                  (validation_rules field).2 <$> rows df)).
Proof.
  intros Hnum Habs. unfold null_out_of_bounds.
  destruct (decide (field ∈ columns df)) as [Hin|Hout].
  - erewrite mapM_total; [done|].
    intros r Hr. unfold null_if_out, spec_soft_rule.
    by rewrite out_of_bounds_numeric by auto.
  - f_equal. destruct df as [cols rs]. simpl in *. f_equal.
    induction rs as [|r rs IH]; [done|]. simpl.
    rewrite soft_rule_absent by (apply Habs; [done|by left]).
    f_equal. apply IH.
    + intros r' Hr'. apply Hnum. by right.
    + intros Hc r' Hr'. apply Habs; [done|by right].
Qed.

Lemma spec_soft_rules_lookup r k :
  k ∉ ["sqft"; "bedrooms"; "bathrooms"] →
  spec_soft_rules r !! k = r !! k.
Proof.
  rewrite !elem_of_cons, elem_of_nil. intros Hk. unfold spec_soft_rules.
  rewrite !soft_rule_lookup_ne; [done|..]; intros ->; tauto.
Qed.

Lemma spec_soft_rules_null r :
  cell r "sqft" = VNull → cell r "bedrooms" = VNull →
  cell r "bathrooms" = VNull → spec_soft_rules r = r.
Proof.
  intros Hs Hb Ha. unfold spec_soft_rules, spec_soft_rule.
  rewrite Hs. simpl. rewrite Hb. simpl. by rewrite Ha.
Qed.

(** The code against the rules as specified, for a batch whose records
    have no cell outside the labels of the frame. *)
Lemma validate_data_spec df :
  (∀ c r, c ∉ columns df → r ∈ rows df → r !! c = None) →
  "price" ∈ columns df →
  comparable df →
  validate_data df = Some (spec_validate df).
Proof.
  intros Habs0 Hprice Hcmp. unfold validate_data.
  set (rs1 := filter (λ r, in_range 0 100000000 (cell r "price") = true)
                     (rows df)).
  assert (Hin1 : ∀ r, r ∈ rs1 → r ∈ rows df).
  { intros r Hr. by apply list_elem_of_filter in Hr as [_ ?]. }
  assert (Hnum : ∀ r c, r ∈ rs1 → c ∈ ruled_columns →
                        numeric_cell (cell r c) = true).
  { intros r c Hr Hc. apply (comparable_cell df); auto. }
  assert (Hstep1 : filter_in_bounds "price" df = Some (Frame (columns df) rs1)).
  { unfold filter_in_bounds. rewrite decide_True by done.
    erewrite filter_try_numeric; [done|].
    intros r Hr. rewrite in_bounds_numeric; [done|].
    apply (comparable_cell df); [done..|]. set_solver. }
  rewrite Hstep1. simpl.
  assert (Habs : ∀ c r, c ∉ columns df → r ∈ rs1 → r !! c = None).
  { intros c r Hc Hr. apply Habs0; auto. }
  rewrite null_out_of_bounds_spec; simpl.
  2: { intros r Hr. apply Hnum; [auto|set_solver]. }
  2: { intros Hc r Hr. apply Habs; auto. }
  rewrite null_out_of_bounds_spec; simpl.
  2: { intros r (r0 & -> & Hr0)%list_elem_of_fmap.
       rewrite soft_rule_cell_ne by done. apply Hnum; [auto|set_solver]. }
  2: { intros Hc r (r0 & -> & Hr0)%list_elem_of_fmap.
       rewrite soft_rule_lookup_ne by done. apply Habs; auto. }
  rewrite null_out_of_bounds_spec; simpl.
  2: { intros r (r1 & -> & (r0 & -> & Hr0)%list_elem_of_fmap)%list_elem_of_fmap.
       rewrite !soft_rule_cell_ne by done. apply Hnum; [auto|set_solver]. }
  2: { intros Hc r (r1 & -> & (r0 & -> & Hr0)%list_elem_of_fmap)%list_elem_of_fmap.
       rewrite !soft_rule_lookup_ne by done. apply Habs; auto. }
  unfold spec_validate, spec_soft_rules. fold rs1.
  by rewrite <- !list_fmap_compose.
Qed.

(** C4. On a batch with a price column whose ruled columns hold numbers
    and nulls, [validate_data] returns, and what it returns is the batch
    as the rules word it: exactly the records whose price is a number in
    [[0, 100_000_000]] are kept, in order; in a kept record [sqft] outside
    [[100, 50_000]], [bedrooms] outside [[0, 20]] and [bathrooms] outside
    [[0, 15]] are nulled, each alone, and nothing else is changed. *)
Theorem validate_data_rules df :
  wf_frame df →
  "price" ∈ columns df →
  comparable df →
  validate_data df = Some (spec_validate df).
Proof.
  intros Hwf Hprice Hcmp. apply validate_data_spec; [|done..].
  intros c r Hc Hr. apply eq_None_not_Some.
  by rewrite (wf_frame_lookup df r c Hwf Hr).
Qed.

(** *** What a successful call lets through *)

Lemma null_if_out_lookup field r o k :
  null_if_out field r = Some o → k ≠ field → o !! k = r !! k.
Proof.
  unfold null_if_out. destruct (out_of_bounds _ _) as [[]|]; simpl;
    intros [= <-] Hk; [|done]. by rewrite lookup_insert_ne.
Qed.

Lemma null_out_of_bounds_origin field df out o :
  null_out_of_bounds field df = Some out → o ∈ rows out →
  ∃ r, r ∈ rows df ∧ ∀ k, k ≠ field → o !! k = r !! k.
Proof.
  unfold null_out_of_bounds. destruct (decide (field ∈ columns df)).
  - destruct (mapM _ _) as [rs|] eqn:Hm; simpl; [|done].
    intros [= <-] Ho. simpl in Ho. apply mapM_Some_1 in Hm.
    revert o Ho. induction Hm as [|r o' l l' Hr _ IH]; intros o Ho.
    + by apply elem_of_nil in Ho.
    + apply elem_of_cons in Ho as [->|Ho].
      * exists r. split; [by left|]. intros k Hk.
        by eapply null_if_out_lookup.
      * destruct (IH o Ho) as (r' & ? & ?). exists r'. split; [by right|done].
  - intros [= <-] Ho. by exists o.
Qed.

Lemma validate_data_origin df out o :
  validate_data df = Some out → o ∈ rows out →
  ∃ r, r ∈ rows df
       ∧ (∀ k, k ∉ ["sqft"; "bedrooms"; "bathrooms"] → o !! k = r !! k)
       ∧ ("price" ∈ columns df →
          in_range 0 100000000 (cell r "price") = true).
Proof.
  unfold validate_data.
  destruct (filter_in_bounds "price" df) as [df1|] eqn:H1; simpl; [|done].
  destruct (null_out_of_bounds "sqft" df1) as [df2|] eqn:H2; simpl; [|done].
  destruct (null_out_of_bounds "bedrooms" df2) as [df3|] eqn:H3; simpl; [|done].
  intros H4 Ho.
  destruct (null_out_of_bounds_origin _ _ _ _ H4 Ho) as (r3 & Hr3 & E3).
  destruct (null_out_of_bounds_origin _ _ _ _ H3 Hr3) as (r2 & Hr2 & E2).
  destruct (null_out_of_bounds_origin _ _ _ _ H2 Hr2) as (r1 & Hr1 & E1).
  exists r1. split; [|split].
  - unfold filter_in_bounds in H1.
    destruct (decide ("price" ∈ columns df)).
    + destruct (filter_try _ _) as [rs|] eqn:Hf; simpl in H1; [|done].
      injection H1 as <-. by apply (filter_try_kept _ _ _ Hf).
    + by injection H1 as <-.
  - intros k Hk. rewrite !elem_of_cons, elem_of_nil in Hk.
    rewrite E3, E2, E1; [done|..]; intros ->; tauto.
  - intros Hp. unfold filter_in_bounds in H1.
    rewrite decide_True in H1 by done.
    destruct (filter_try _ _) as [rs|] eqn:Hf; simpl in H1; [|done].
    injection H1 as <-.
    destruct (filter_try_kept _ _ _ Hf r1 Hr1) as [_ Hb].
    by apply (in_bounds_true "price").
Qed.

End ValidateFacts.

(* ===================================================================== *)
(** ** Properties of the adapters                                         *)
(* ===================================================================== *)

Section FrameFacts.

Implicit Types (df : DataFrame) (r x : Row) (v : value) (c k : string).

Lemma elem_of_add_label c k (cols : list string) :
  k ∈ add_label c cols ↔ k = c ∨ k ∈ cols.
Proof.
  unfold add_label. destruct (decide (c ∈ cols)) as [Hc|Hc].
  - split; [by right|]. by intros [->|?].
  - rewrite elem_of_app, list_elem_of_singleton. tauto.
Qed.

Lemma restrict_lookup cols r k :
  restrict cols r !! k = if decide (k ∈ cols) then r !! k else None.
Proof.
  unfold restrict. destruct (decide (k ∈ cols)) as [Hin|Hout].
  - destruct (r !! k) as [v|] eqn:Hk.
    + by apply map_lookup_filter_Some.
    + apply map_lookup_filter_None. by left.
  - apply map_lookup_filter_None. right. intros v _. done.
Qed.

Lemma rename_row_lookup old new r k :
  rename_row old new r !! k =
    if decide (k = new) then
      match r !! old with Some v => Some v | None => r !! new end
    else if decide (k = old) then None
    else r !! k.
Proof.
  unfold rename_row. destruct (r !! old) as [v|] eqn:Hold.
  - destruct (decide (k = new)) as [->|Hn].
    + by rewrite lookup_insert_eq.
    + rewrite lookup_insert_ne by done.
      destruct (decide (k = old)) as [->|Ho].
      * by rewrite lookup_delete_eq.
      * by rewrite lookup_delete_ne.
  - destruct (decide (k = new)) as [->|Hn]; [done|].
    destruct (decide (k = old)) as [->|Ho]; done.
Qed.

Lemma rename_row_lookup_ne old new r k :
  k ≠ old → k ≠ new → rename_row old new r !! k = r !! k.
Proof. intros. rewrite rename_row_lookup. by rewrite !decide_False. Qed.

Lemma melt_row_date ids c r : melt_row ids c r !! "date" = Some (VStr c).
Proof. unfold melt_row. by rewrite lookup_insert_ne, lookup_insert_eq. Qed.

Lemma melt_row_price ids c r : melt_row ids c r !! "price" = Some (cell r c).
Proof. unfold melt_row. by rewrite lookup_insert_eq. Qed.

Lemma melt_row_id ids c r k :
  k ≠ "date" → k ≠ "price" →
  melt_row ids c r !! k = if decide (k ∈ ids) then r !! k else None.
Proof.
  intros. unfold melt_row.
  by rewrite !lookup_insert_ne, restrict_lookup.
Qed.

(** The labels of the result: the listing columns, [region] and [city]
    only when the source has the column they are renamed from. *)
Lemma zillow_out_columns_eq df :
  zillow_out_columns df =
    ["listing_id"; "date"]
    ++ (if decide ("StateName" ∈ columns df) then ["region"] else [])
    ++ (if decide ("RegionName" ∈ columns df) then ["city"] else [])
    ++ ["property_type"; "price"; "tax"; "sale_type"; "ownership";
        "bedrooms"; "bathrooms"; "sqft"].
Proof.
  unfold zillow_out_columns, zillow_out_columns_of, zillow_ids, zillow_id_vars.
  rewrite !filter_cons, filter_nil.
  destruct (decide ("RegionID" ∈ columns df)),
           (decide ("SizeRank" ∈ columns df)),
           (decide ("RegionName" ∈ columns df)),
           (decide ("RegionType" ∈ columns df)),
           (decide ("StateName" ∈ columns df)); vm_compute; reflexivity.
Qed.

Lemma zillow_out_columns_fixed df k :
  k ∈ ["listing_id"; "date"; "property_type"; "price"; "tax"; "sale_type";
       "ownership"; "bedrooms"; "bathrooms"; "sqft"] →
  k ∈ zillow_out_columns df.
Proof.
  rewrite zillow_out_columns_eq. intros Hk.
  rewrite !elem_of_app. rewrite !elem_of_cons in Hk.
  rewrite !elem_of_cons. tauto.
Qed.

Lemma zillow_out_columns_region df :
  "region" ∈ zillow_out_columns df ↔ "StateName" ∈ columns df.
Proof.
  rewrite zillow_out_columns_eq.
  destruct (decide ("StateName" ∈ columns df)),
           (decide ("RegionName" ∈ columns df));
    simpl; rewrite !elem_of_cons, elem_of_nil; split; intros Hx;
    try done; try tauto;
    repeat (destruct Hx as [Hx|Hx]; [discriminate Hx|]); done.
Qed.

Lemma zillow_out_columns_city df :
  "city" ∈ zillow_out_columns df ↔ "RegionName" ∈ columns df.
Proof.
  rewrite zillow_out_columns_eq.
  destruct (decide ("StateName" ∈ columns df)),
           (decide ("RegionName" ∈ columns df));
    simpl; rewrite !elem_of_cons, elem_of_nil; split; intros Hx;
    try done; try tauto;
    repeat (destruct Hx as [Hx|Hx]; [discriminate Hx|]); done.
Qed.

End FrameFacts.


Section ZillowFacts.
Context `{Externals}.

Implicit Types (df : DataFrame) (r x o : Row) (v : value) (c k : string).

(** Lines 73-92 on a whole frame. *)
Lemma zillow_tail cs rs :
  select listing_columns
    (zillow_defaults
       (rename [("RegionName", "city"); ("StateName", "region")]
               (Frame cs rs)))
  = Frame (zillow_out_columns_of cs)
          (zillow_finish (zillow_out_columns_of cs) <$> rs).
Proof.
  unfold zillow_out_columns_of, rename. cbn [fold_left].
  unfold select, zillow_defaults, assign, rename1. cbn [columns rows fst snd].
  f_equal. by rewrite <- !list_fmap_compose.
Qed.

(** [zillow_body] record by record. *)
Lemma zillow_body_unfold df :
  zillow_body df =
    dated ← mapM date_step
              (rows (melt (zillow_ids df) (zillow_date_cols df) df));
    let kept := filter (λ x, notna (cell x "price") = true)
                       (price_step <$> dated) in
    ided ← match kept with [] => None | _ => mapM id_step kept end;
    Some (Frame (zillow_out_columns df)
                (zillow_finish (zillow_out_columns df) <$> ided)).
Proof.
  unfold zillow_body, assign_try. fold date_step.
  destruct (mapM date_step _) as [dated|]; cbn [mbind option_bind]; [|done].
  unfold apply_assign, assign_try, dropna, assign.
  cbn [columns rows melt]. fold price_step. fold id_step.
  destruct (filter _ (price_step <$> dated)) as [|x kept];
    cbn [mbind option_bind]; [done|].
  destruct (mapM id_step (x :: kept)) as [ided|];
    cbn [mbind option_bind]; [|done].
  rewrite zillow_tail. unfold zillow_out_columns. reflexivity.
Qed.

(** *** The cells of a built record *)

Lemma zillow_finish_kept cols x k :
  k ∈ ["listing_id"; "date"; "price"] → k ∈ cols →
  zillow_finish cols x !! k = x !! k.
Proof.
  intros Hk Hc. unfold zillow_finish.
  rewrite restrict_lookup, decide_True by done.
  rewrite !elem_of_cons, elem_of_nil in Hk.
  destruct Hk as [->|[->|[->|[]]]];
    by rewrite !lookup_insert_ne, !rename_row_lookup_ne.
Qed.

Lemma zillow_finish_region cols x :
  x !! "region" = None →
  zillow_finish cols x !! "region"
  = if decide ("region" ∈ cols) then x !! "StateName" else None.
Proof.
  intros Hx. unfold zillow_finish. rewrite restrict_lookup.
  destruct (decide ("region" ∈ cols)); [|done].
  rewrite !lookup_insert_ne by done.
  rewrite rename_row_lookup, decide_True by done.
  rewrite !rename_row_lookup_ne by done.
  rewrite Hx. by destruct (x !! "StateName").
Qed.

Lemma zillow_finish_city cols x :
  x !! "city" = None →
  zillow_finish cols x !! "city"
  = if decide ("city" ∈ cols) then x !! "RegionName" else None.
Proof.
  intros Hx. unfold zillow_finish. rewrite restrict_lookup.
  destruct (decide ("city" ∈ cols)); [|done].
  rewrite !lookup_insert_ne by done.
  rewrite rename_row_lookup_ne by done.
  rewrite rename_row_lookup, decide_True by done.
  rewrite Hx. by destruct (x !! "RegionName").
Qed.

Lemma zillow_finish_defaults cols x :
  (∀ k, k ∈ ["property_type"; "sale_type"; "ownership"; "bedrooms";
             "bathrooms"; "sqft"; "tax"] → k ∈ cols) →
  zillow_finish cols x !! "property_type" = Some (VStr "condo")
  ∧ zillow_finish cols x !! "sale_type" = Some (VStr "sale")
  ∧ zillow_finish cols x !! "ownership" = Some (VStr "unknown")
  ∧ zillow_finish cols x !! "bedrooms" = Some VNull
  ∧ zillow_finish cols x !! "bathrooms" = Some VNull
  ∧ zillow_finish cols x !! "sqft" = Some VNull
  ∧ zillow_finish cols x !! "tax" = Some VNull.
Proof.
  intros Hc. unfold zillow_finish. rewrite !restrict_lookup.
  rewrite !decide_True by (apply Hc; rewrite !elem_of_cons; tauto).
  repeat split;
    repeat (first [ by rewrite lookup_insert_eq
                  | rewrite lookup_insert_ne by done ]).
Qed.

Lemma elem_of_zillow_ids df k :
  k ∈ zillow_ids df ↔ k ∈ zillow_id_vars ∧ k ∈ columns df.
Proof. unfold zillow_ids. rewrite list_elem_of_filter. tauto. Qed.

Lemma melted_lookup_id df r c t key v k :
  k ∈ zillow_id_vars →
  (<["listing_id" := key]> (<["price" := v]>
     (<["date" := VTime t]> (melt_row (zillow_ids df) c r)))) !! k
  = if decide (k ∈ columns df) then r !! k else None.
Proof.
  intros Hk.
  assert (k ≠ "listing_id" ∧ k ≠ "price" ∧ k ≠ "date") as (? & ? & ?).
  { unfold zillow_id_vars in Hk. rewrite !elem_of_cons, elem_of_nil in Hk.
    destruct Hk as [->|[->|[->|[->|[->|[]]]]]]; done. }
  rewrite !lookup_insert_ne, melt_row_id by done.
  destruct (decide (k ∈ columns df)) as [Hc|Hc].
  - rewrite decide_True; [done|]. by apply elem_of_zillow_ids.
  - rewrite decide_False; [done|]. rewrite elem_of_zillow_ids. tauto.
Qed.

Lemma melted_lookup_other df r c t key v k :
  k ∉ zillow_id_vars → k ≠ "listing_id" → k ≠ "price" → k ≠ "date" →
  (<["listing_id" := key]> (<["price" := v]>
     (<["date" := VTime t]> (melt_row (zillow_ids df) c r)))) !! k = None.
Proof.
  intros Hk ? ? ?. rewrite !lookup_insert_ne, melt_row_id by done.
  rewrite decide_False; [done|]. rewrite elem_of_zillow_ids. tauto.
Qed.

(** The cells of the record built from entity [r] and date column [c]. *)
Lemma zillow_record_cells df r c t key :
  let o := zillow_record df r c t key in
  o !! "listing_id" = Some (listing_id_of "zillow" key (VTime t))
  ∧ o !! "date" = Some (VTime t)
  ∧ o !! "price" = Some (to_numeric_coerce (cell r c))
  ∧ o !! "region"
    = (if decide ("StateName" ∈ columns df) then r !! "StateName" else None)
  ∧ o !! "city"
    = (if decide ("RegionName" ∈ columns df) then r !! "RegionName" else None)
  ∧ o !! "property_type" = Some (VStr "condo")
  ∧ o !! "sale_type" = Some (VStr "sale")
  ∧ o !! "ownership" = Some (VStr "unknown")
  ∧ o !! "bedrooms" = Some VNull
  ∧ o !! "bathrooms" = Some VNull
  ∧ o !! "sqft" = Some VNull
  ∧ o !! "tax" = Some VNull.
Proof.
  unfold zillow_record.
  split; [|split; [|split; [|split; [|split]]]].
  - rewrite zillow_finish_kept.
    + by rewrite lookup_insert_eq.
    + rewrite !elem_of_cons. tauto.
    + apply zillow_out_columns_fixed. rewrite !elem_of_cons. tauto.
  - rewrite zillow_finish_kept.
    + rewrite !lookup_insert_ne by done. by rewrite lookup_insert_eq.
    + rewrite !elem_of_cons. tauto.
    + apply zillow_out_columns_fixed. rewrite !elem_of_cons. tauto.
  - rewrite zillow_finish_kept.
    + rewrite lookup_insert_ne by done. by rewrite lookup_insert_eq.
    + rewrite !elem_of_cons. tauto.
    + apply zillow_out_columns_fixed. rewrite !elem_of_cons. tauto.
  - rewrite zillow_finish_region.
    + rewrite melted_lookup_id
        by (unfold zillow_id_vars; rewrite !elem_of_cons; tauto).
      destruct (decide ("StateName" ∈ columns df)) as [Hs|Hs].
      * rewrite decide_True; [done|]. by apply zillow_out_columns_region.
      * rewrite decide_False; [done|]. by rewrite zillow_out_columns_region.
    + apply melted_lookup_other; try done.
      unfold zillow_id_vars. rewrite !elem_of_cons, elem_of_nil.
      intros [?|[?|[?|[?|[?|[]]]]]]; done.
  - rewrite zillow_finish_city.
    + rewrite melted_lookup_id
        by (unfold zillow_id_vars; rewrite !elem_of_cons; tauto).
      destruct (decide ("RegionName" ∈ columns df)) as [Hs|Hs].
      * rewrite decide_True; [done|]. by apply zillow_out_columns_city.
      * rewrite decide_False; [done|]. by rewrite zillow_out_columns_city.
    + apply melted_lookup_other; try done.
      unfold zillow_id_vars. rewrite !elem_of_cons, elem_of_nil.
      intros [?|[?|[?|[?|[?|[]]]]]]; done.
  - apply zillow_finish_defaults. intros k Hk.
    apply zillow_out_columns_fixed.
    rewrite !elem_of_cons, elem_of_nil in Hk. rewrite !elem_of_cons. tauto.
Qed.

(** *** The records of the result *)

Lemma Forall2_elem_of_r {A B} (R : A → B → Prop) (l : list A) (l' : list B) b :
  Forall2 R l l' → b ∈ l' → ∃ a, a ∈ l ∧ R a b.
Proof.
  induction 1 as [|a0 b0 l l' HR _ IH]; intros Hb.
  - by apply elem_of_nil in Hb.
  - apply elem_of_cons in Hb as [->|Hb].
    + exists a0. split; [by left|done].
    + destruct (IH Hb) as (a & ? & ?). exists a. split; [by right|done].
Qed.

Lemma date_step_melt ids c r t :
  to_datetime (VStr c) = Some t →
  date_step (melt_row ids c r) = Some (<["date" := VTime t]> (melt_row ids c r)).
Proof.
  intros Ht. unfold date_step, cell. rewrite melt_row_date. simpl.
  by rewrite Ht.
Qed.

Lemma date_step_melt_inv ids c r d :
  date_step (melt_row ids c r) = Some d →
  ∃ t, to_datetime (VStr c) = Some t
       ∧ d = <["date" := VTime t]> (melt_row ids c r).
Proof.
  unfold date_step, cell. rewrite melt_row_date. simpl.
  destruct (to_datetime (VStr c)) as [t|]; simpl; [|done].
  intros [= <-]. by exists t.
Qed.

Lemma price_step_dated ids c r t :
  price_step (<["date" := VTime t]> (melt_row ids c r))
  = <["price" := to_numeric_coerce (cell r c)]>
      (<["date" := VTime t]> (melt_row ids c r)).
Proof.
  unfold price_step. f_equal. unfold cell at 1.
  rewrite lookup_insert_ne by done. by rewrite melt_row_price.
Qed.

Lemma id_step_priced ids c r t p :
  id_step (<["price" := p]> (<["date" := VTime t]> (melt_row ids c r)))
  = key ← melt_row ids c r !! "RegionID";
    Some (<["listing_id" := listing_id_of "zillow" key (VTime t)]>
            (<["price" := p]> (<["date" := VTime t]> (melt_row ids c r)))).
Proof.
  unfold id_step, zillow_listing_id.
  set (m := melt_row ids c r).
  assert (E1 : <["price" := p]> (<["date" := VTime t]> m) !! "RegionID"
               = m !! "RegionID")
    by (rewrite lookup_insert_ne by done; by rewrite lookup_insert_ne).
  assert (E2 : <["price" := p]> (<["date" := VTime t]> m) !! "date"
               = Some (VTime t))
    by (rewrite lookup_insert_ne by done; by rewrite lookup_insert_eq).
  rewrite E1. destruct (m !! "RegionID") as [key|]; simpl; [|done].
  by rewrite E2.
Qed.

(** Where a record of the result comes from: an entity of the source and
    one of its date columns, whose label parsed and whose cell is a
    number. *)
Lemma zillow_rows_origin df o :
  o ∈ rows (clean_zillow_data df) →
  ∃ r c t key,
    r ∈ rows df ∧ c ∈ zillow_date_cols df
    ∧ to_datetime (VStr c) = Some t
    ∧ notna (to_numeric_coerce (cell r c)) = true
    ∧ o = zillow_record df r c t key.
Proof.
  unfold clean_zillow_data.
  destruct (df_empty df); [by intros ?%elem_of_nil|].
  destruct (zillow_body df) as [out|] eqn:Hbody;
    [|by intros ?%elem_of_nil].
  rewrite zillow_body_unfold in Hbody. simpl.
  destruct (mapM date_step _) as [dated|] eqn:Hdated;
    cbn [mbind option_bind] in Hbody; [|done].
  cbv zeta in Hbody.
  set (kept := filter _ (price_step <$> dated)) in Hbody.
  assert (∃ ided, mapM id_step kept = Some ided
                  ∧ out = Frame (zillow_out_columns df)
                            (zillow_finish (zillow_out_columns df) <$> ided))
    as (ided & Hided & ->).
  { destruct kept; [done|].
    destruct (mapM id_step _) as [ided|]; [|done].
    exists ided. split; [done|]. by injection Hbody as <-. }
  cbn [rows]. intros (x' & -> & Hx')%list_elem_of_fmap.
  apply mapM_Some_1 in Hided, Hdated.
  destruct (Forall2_elem_of_r _ _ _ _ Hided Hx') as (x & Hx & Hidx).
  apply list_elem_of_filter in Hx as [Hna (d & -> & Hd)%list_elem_of_fmap].
  destruct (Forall2_elem_of_r _ _ _ _ Hdated Hd) as (l & Hl & Hdl).
  unfold melt in Hl. cbn [rows] in Hl.
  apply list_elem_of_bind in Hl as (c & (r & -> & Hr)%list_elem_of_fmap & Hc).
  apply date_step_melt_inv in Hdl as (t & Ht & ->).
  rewrite price_step_dated in Hna, Hidx.
  rewrite cell_insert_eq in Hna.
  rewrite id_step_priced in Hidx.
  destruct (melt_row (zillow_ids df) c r !! "RegionID") as [key|];
    simpl in Hidx; [|done].
  injection Hidx as <-.
  by exists r, c, t, key.
Qed.

(** C9, amended. From one entity row with three date columns, with a
    [RegionID] and date labels that parse, [clean_zillow_data] builds one
    record per date column whose cell is a number, in column order, and
    none for a cell that is null or no number: three records exactly when
    all three cells are numbers. Each record carries the identifier
    derived from the row's [RegionID] and the column's date, that date as
    its period, the cell as its price, and the row's [StateName] and
    [RegionName] as region and city. *)
Theorem zillow_reshape df r key d1 d2 d3 t1 t2 t3 :
  rows df = [r] →
  zillow_date_cols df = [d1; d2; d3] →
  "RegionID" ∈ columns df →
  r !! "RegionID" = Some key →
  to_datetime (VStr d1) = Some t1 →
  to_datetime (VStr d2) = Some t2 →
  to_datetime (VStr d3) = Some t3 →
  rows (clean_zillow_data df)
  = omap (λ '(c, t), if notna (to_numeric_coerce (cell r c))
                      then Some (zillow_record df r c t key) else None)
         [(d1, t1); (d2, t2); (d3, t3)]
  ∧ ∀ c t,
      let o := zillow_record df r c t key in
      o !! "listing_id" = Some (listing_id_of "zillow" key (VTime t))
      ∧ o !! "date" = Some (VTime t)
      ∧ o !! "price" = Some (to_numeric_coerce (cell r c))
      ∧ o !! "region"
        = (if decide ("StateName" ∈ columns df) then r !! "StateName" else None)
      ∧ o !! "city"
        = (if decide ("RegionName" ∈ columns df) then r !! "RegionName" else None).
Proof.
  intros Hrows Hdc Hid Hkey Ht1 Ht2 Ht3. split.
  2: { intros c t.
       pose proof (zillow_record_cells df r c t key) as Hc.
       cbv zeta in Hc |- *. destruct Hc as (? & ? & ? & ? & ? & _).
       repeat split; assumption. }
  assert (Hne : df_empty df = false).
  { unfold df_empty. rewrite Hrows. destruct (columns df); [|done].
    by apply elem_of_nil in Hid. }
  assert (Hmk : ∀ c, melt_row (zillow_ids df) c r !! "RegionID" = Some key).
  { intros c. rewrite melt_row_id by done. rewrite decide_True; [done|].
    apply elem_of_zillow_ids. split; [|done].
    unfold zillow_id_vars. by left. }
  unfold clean_zillow_data. rewrite Hne, zillow_body_unfold.
  unfold melt. cbn [rows]. rewrite Hrows, Hdc.
  cbn [mbind list_bind fmap list_fmap app mapM].
  rewrite (date_step_melt _ d1 r t1 Ht1), (date_step_melt _ d2 r t2 Ht2),
    (date_step_melt _ d3 r t3 Ht3).
  cbn [mbind option_bind mret option_ret fmap list_fmap].
  rewrite !price_step_dated.
  rewrite !filter_cons, filter_nil, !cell_insert_eq.
  cbn [omap list_omap].
  destruct (notna (to_numeric_coerce (cell r d1))),
           (notna (to_numeric_coerce (cell r d2))),
           (notna (to_numeric_coerce (cell r d3)));
    repeat first
      [ rewrite decide_True by done
      | rewrite decide_False by done
      | rewrite id_step_priced
      | rewrite Hmk
      | progress cbn [mapM mbind option_bind mret option_ret default rows
                      fmap list_fmap] ];
    reflexivity.
Qed.

(** *** The adapter's result under [validate_data] *)

Lemma clean_zillow_cases df :
  clean_zillow_data df = empty_frame
  ∨ ∃ ided, clean_zillow_data df
            = Frame (zillow_out_columns df)
                    (zillow_finish (zillow_out_columns df) <$> ided).
Proof.
  unfold clean_zillow_data. destruct (df_empty df); [by left|].
  rewrite zillow_body_unfold.
  destruct (mapM date_step _) as [dated|]; cbn [mbind option_bind]; [|by left].
  cbv zeta. destruct (filter _ _); [by left|].
  destruct (mapM id_step _) as [ided|]; [|by left].
  right. by exists ided.
Qed.

Lemma zillow_columns df :
  clean_zillow_data df = empty_frame
  ∨ columns (clean_zillow_data df) = zillow_out_columns df.
Proof.
  destruct (clean_zillow_cases df) as [Hz|[ided Hz]]; [by left|].
  right. by rewrite Hz.
Qed.

Lemma zillow_record_absent df r c t key k :
  k ∉ zillow_out_columns df → zillow_record df r c t key !! k = None.
Proof.
  intros Hk. unfold zillow_record, zillow_finish.
  rewrite restrict_lookup. by rewrite decide_False.
Qed.

Lemma numeric_to_numeric_coerce v : numeric_cell (to_numeric_coerce v) = true.
Proof.
  destruct v; simpl; try done. by destruct (to_numeric_str s).
Qed.

Lemma zillow_comparable df : comparable (clean_zillow_data df).
Proof.
  unfold comparable. apply Forall_forall. intros o Ho.
  destruct (zillow_rows_origin df o Ho) as (r & c & t & key & _ & _ & _ & _ & ->).
  pose proof (zillow_record_cells df r c t key) as Hc. cbv zeta in Hc.
  destruct Hc as (_ & _ & Hp & _ & _ & _ & _ & _ & Hbed & Hbath & Hsq & _).
  unfold ruled_columns, cell.
  repeat (apply Forall_cons; split).
  - rewrite Hp. apply numeric_to_numeric_coerce.
  - by rewrite Hsq.
  - by rewrite Hbed.
  - by rewrite Hbath.
  - done.
Qed.

(** On the adapter's result [validate_data] goes through, and it is
    nothing but the price filter: the soft columns are all null. *)
Lemma validate_zillow df :
  validate_data (clean_zillow_data df)
  = Some (Frame (columns (clean_zillow_data df))
            (filter (λ o, in_range 0 100000000 (cell o "price") = true)
                    (rows (clean_zillow_data df)))).
Proof.
  destruct (zillow_columns df) as [Hc|Hc].
  - by rewrite Hc.
  - rewrite validate_data_spec.
    + unfold spec_validate. do 2 f_equal.
      rewrite <- (list_fmap_id (filter _ _)) at 2.
      apply list_fmap_ext. intros i o Ho.
      apply list_elem_of_lookup_2, list_elem_of_filter in Ho as [_ Ho].
      destruct (zillow_rows_origin df o Ho)
        as (r & c & t & key & _ & _ & _ & _ & ->).
      pose proof (zillow_record_cells df r c t key) as Hcells.
      cbv zeta in Hcells.
      destruct Hcells as (_ & _ & _ & _ & _ & _ & _ & _ & Hbed & Hbath & Hsq & _).
      unfold id. apply spec_soft_rules_null; unfold cell.
      * by rewrite Hsq.
      * by rewrite Hbed.
      * by rewrite Hbath.
    + intros k o Hk Ho.
      destruct (zillow_rows_origin df o Ho)
        as (r & c & t & key & _ & _ & _ & _ & ->).
      apply zillow_record_absent. by rewrite <- Hc.
    + rewrite Hc. apply zillow_out_columns_fixed. rewrite !elem_of_cons. tauto.
    + apply zillow_comparable.
Qed.


(** Every record the wide-format adapter emits is a [condo]. *)
Lemma zillow_property_type df o :
  o ∈ rows (clean_zillow_data df) →
  o !! "property_type" = Some (VStr "condo").
Proof.
  intros Ho.
  destruct (zillow_rows_origin df o Ho)
    as (r & c & t & key & _ & _ & _ & _ & ->).
  pose proof (zillow_record_cells df r c t key) as Hcells.
  cbv zeta in Hcells. tauto.
Qed.

End ZillowFacts.

Section RedfinFacts.
Context `{Externals}.

Implicit Types (df : DataFrame) (r x y o : Row) (v : value) (c k : string).

Lemma rename_row_same old r : rename_row old old r = r.
Proof.
  unfold rename_row. destruct (r !! old) as [v|] eqn:Hr; [|done].
  rewrite insert_delete_eq. by apply insert_id.
Qed.

Lemma rename_label_same old c : rename_label old old c = c.
Proof. unfold rename_label. by case_decide. Qed.

Lemma elem_of_rename_label_ne old new (cols : list string) k :
  k ≠ old → k ≠ new → k ∈ rename_label old new <$> cols ↔ k ∈ cols.
Proof.
  intros Ho Hn. rewrite list_elem_of_fmap. unfold rename_label. split.
  - intros (c & -> & Hc). by case_decide.
  - intros Hk. exists k. by rewrite decide_False.
Qed.

Lemma rows_rename m df : rows (rename m df) = rename_rows m <$> rows df.
Proof.
  unfold rename. revert df.
  induction m as [|p m IH]; intros df; cbn [fold_left].
  - by rewrite list_fmap_id.
  - rewrite IH. cbn [rename1 rows]. rewrite <- list_fmap_compose.
    by apply list_fmap_ext.
Qed.

Lemma columns_rename m df :
  columns (rename m df)
  = fold_left (λ cs p, rename_label p.1 p.2 <$> cs) m (columns df).
Proof.
  unfold rename. revert df.
  induction m as [|p m IH]; intros df; cbn [fold_left]; [done|].
  by rewrite IH.
Qed.

(** A label no pair of the map names (or only a pair that renames it to
    itself) is untouched by the relabelling. *)
Lemma redfin_rename_lookup x k :
  k ∉ ["period_end"; "date"; "region"; "city"; "state_code";
       "median_sale_price"; "price"] →
  rename_rows redfin_rename_map x !! k = x !! k.
Proof.
  rewrite !elem_of_cons, elem_of_nil. intros Hk.
  unfold rename_rows, redfin_rename_map. cbn [fold_left fst snd].
  rewrite rename_row_same.
  rewrite !rename_row_lookup_ne; [done|..]; intros ->; tauto.
Qed.

Lemma redfin_rename_columns (cols : list string) k :
  k ∉ ["period_end"; "date"; "region"; "city"; "state_code";
       "median_sale_price"; "price"] →
  k ∈ fold_left (λ cs p, rename_label p.1 p.2 <$> cs) redfin_rename_map cols
  ↔ k ∈ cols.
Proof.
  rewrite !elem_of_cons, elem_of_nil. intros Hk.
  unfold redfin_rename_map. cbn [fold_left fst snd].
  rewrite (list_fmap_ext (rename_label "property_type" "property_type") id)
    by (intros; apply rename_label_same).
  rewrite list_fmap_id.
  rewrite !elem_of_rename_label_ne; [done|..]; intros ->; tauto.
Qed.

Lemma redfin_defaults_rows df :
  rows (redfin_defaults df) = redfin_default_cells <$> rows df.
Proof.
  unfold redfin_defaults, assign, redfin_default_cells. cbn [rows].
  by rewrite <- !list_fmap_compose.
Qed.

Lemma redfin_defaults_columns df k :
  k ∈ columns (redfin_defaults df)
  ↔ k ∈ ["sqft"; "bathrooms"; "bedrooms"; "tax"; "ownership"; "sale_type"]
    ∨ k ∈ columns df.
Proof.
  unfold redfin_defaults, assign. cbn [columns].
  rewrite !elem_of_add_label, !elem_of_cons, elem_of_nil. tauto.
Qed.

Lemma redfin_default_cells_lookup x k :
  k ∉ ["sqft"; "bathrooms"; "bedrooms"; "tax"; "ownership"; "sale_type"] →
  redfin_default_cells x !! k = x !! k.
Proof.
  rewrite !elem_of_cons, elem_of_nil. intros Hk.
  unfold redfin_default_cells.
  rewrite !lookup_insert_ne; [done|..]; intros <-; tauto.
Qed.

Lemma redfin_property_type_Some X df5 :
  redfin_property_type X = Some df5 →
  rows df5
  = (λ y, <["property_type" :=
             redfin_category (bool_decide ("property_type" ∈ columns X))
                             (cell y "property_type")]> y) <$> rows X
  ∧ ∀ k, k ∈ columns df5 ↔ k = "property_type" ∨ k ∈ columns X.
Proof.
  unfold redfin_property_type.
  destruct (decide ("property_type" ∈ columns X)) as [Hin|Hout].
  - unfold str_lower_column. destruct (existsb _ _); [|done].
    cbn [mbind option_bind]. intros [= <-]. unfold assign. cbn [rows columns].
    split.
    + rewrite <- list_fmap_compose. apply list_fmap_ext. intros _ y _.
      cbn [compose]. rewrite cell_insert_eq, insert_insert_eq.
      by rewrite bool_decide_eq_true_2.
    + intros k. rewrite !elem_of_add_label. tauto.
  - intros [= <-]. unfold assign. cbn [rows columns]. split.
    + by rewrite bool_decide_eq_false_2.
    + intros k. by rewrite elem_of_add_label.
Qed.

Lemma dedup_rows_subset c seen rs o : o ∈ dedup_rows c seen rs → o ∈ rs.
Proof.
  revert seen. induction rs as [|r rs IH]; intros seen; cbn [dedup_rows].
  - done.
  - destruct (existsb _ seen).
    + intros Ho. right. by eapply IH.
    + intros [->|Ho]%elem_of_cons; [by left|]. right. by eapply IH.
Qed.

Lemma bind_Some {A B} (a : A) (f : A → option B) : Some a ≫= f = f a.
Proof. reflexivity. Qed.

(** [redfin_body], step by step. *)
Lemma redfin_period_step df :
  assign_try "period_end" (λ r, to_datetime_cell (cell r "period_end")) df
  = dated ← mapM period_step (rows df);
    Some (Frame (add_label "period_end" (columns df)) dated).
Proof. reflexivity. Qed.

Lemma redfin_id_assign cols dated :
  apply_assign "listing_id" redfin_listing_id (Frame cols dated)
  = ided ← match dated with [] => None | _ => mapM redfin_id_step dated end;
    Some (Frame (add_label "listing_id" cols) ided).
Proof. unfold apply_assign. cbn [rows]. by destruct dated. Qed.

Lemma redfin_body_steps df :
  redfin_body df =
    if decide ("period_end" ∈ columns df) then
      df_clean ← assign_try "period_end"
                   (λ r, to_datetime_cell (cell r "period_end")) df;
      df_clean ← apply_assign "listing_id" redfin_listing_id df_clean;
      df_clean ← redfin_property_type
                   (redfin_defaults (rename redfin_rename_map df_clean));
      Some (drop_duplicates "listing_id" (select listing_columns df_clean))
    else None.
Proof. reflexivity. Qed.

Lemma redfin_body_Some df out :
  redfin_body df = Some out →
  ∃ dated ided df5,
    mapM period_step (rows df) = Some dated
    ∧ mapM redfin_id_step dated = Some ided
    ∧ redfin_property_type
        (redfin_defaults
           (rename redfin_rename_map
              (Frame (add_label "listing_id"
                        (add_label "period_end" (columns df))) ided)))
      = Some df5
    ∧ out = drop_duplicates "listing_id" (select listing_columns df5).
Proof.
  rewrite redfin_body_steps.
  destruct (decide _); [|done].
  rewrite redfin_period_step.
  destruct (mapM period_step (rows df)) as [dated|]; [|done].
  repeat (rewrite bind_Some; cbv beta). rewrite redfin_id_assign.
  destruct (match dated with [] => None | _ => mapM redfin_id_step dated end)
    as [ided|] eqn:Hided; [|done].
  repeat (rewrite bind_Some; cbv beta).
  destruct (redfin_property_type _) as [df5|] eqn:Hpt; [|done].
  rewrite bind_Some. intros [= <-].
  exists dated, ided, df5. repeat split; [|done].
  by destruct dated.
Qed.

(** Where a record of the result comes from: a record of the source whose
    period parsed; its identifier and its category. *)
Lemma redfin_rows_origin df o :
  o ∈ rows (clean_redfin_data df) →
  ∃ r v,
    r ∈ rows df
    ∧ to_datetime_cell (cell r "period_end") = Some v
    ∧ o !! "listing_id"
      = Some (listing_id_of "redfin" (default (VStr "") (r !! "region")) v)
    ∧ o !! "property_type"
      = Some (redfin_category (bool_decide ("property_type" ∈ columns df))
                              (cell r "property_type")).
Proof.
  unfold clean_redfin_data.
  destruct (df_empty df); [by intros ?%elem_of_nil|].
  destruct (redfin_body df) as [out|] eqn:Hbody;
    [|by intros ?%elem_of_nil].
  cbn [default].
  apply redfin_body_Some in Hbody
    as (dated & ided & df5 & Hdated & Hided & Hpt & ->).
  apply redfin_property_type_Some in Hpt as [Hrows5 Hcols5].
  rewrite redfin_defaults_rows, rows_rename in Hrows5. cbn [rows] in Hrows5.
  unfold drop_duplicates, select. cbn [rows].
  intros Ho%dedup_rows_subset.
  apply list_elem_of_fmap in Ho as (y5 & -> & Hy5).
  rewrite Hrows5 in Hy5.
  apply list_elem_of_fmap in Hy5 as (y & -> & Hy).
  apply list_elem_of_fmap in Hy as (z & -> & Hz).
  apply list_elem_of_fmap in Hz as (x & -> & Hx).
  apply mapM_Some_1 in Hided, Hdated.
  destruct (Forall2_elem_of_r _ _ _ _ Hided Hx) as (d & Hd & Hidx).
  destruct (Forall2_elem_of_r _ _ _ _ Hdated Hd) as (r & Hr & Hdr).
  unfold period_step in Hdr.
  destruct (to_datetime_cell (cell r "period_end")) as [v|] eqn:Hv;
    cbn [mbind option_bind] in Hdr; [|done].
  injection Hdr as <-.
  unfold redfin_id_step, redfin_listing_id in Hidx.
  rewrite lookup_insert_eq in Hidx. cbn [mbind option_bind] in Hidx.
  rewrite lookup_insert_ne in Hidx by done.
  injection Hidx as <-.
  exists r, v. split; [done|]. split; [done|].
  assert (Hcol : ∀ k, k ∈ ["listing_id"; "property_type"] →
    k ∈ filter (λ c, c ∈ columns df5) listing_columns).
  { intros k Hk. apply list_elem_of_filter.
    rewrite !elem_of_cons, elem_of_nil in Hk. split.
    - apply Hcols5. destruct Hk as [->|[->|[]]]; [right|by left].
      apply redfin_defaults_columns. right.
      rewrite columns_rename. apply redfin_rename_columns.
      + rewrite !elem_of_cons, elem_of_nil. intros [?|[?|[?|[?|[?|[?|[?|[]]]]]]]]; done.
      + cbn [columns]. apply elem_of_add_label. by left.
    - unfold listing_columns. rewrite !elem_of_cons.
      destruct Hk as [->|[->|[]]]; tauto. }
  split.
  - rewrite restrict_lookup, decide_True
      by (apply Hcol; rewrite !elem_of_cons; tauto).
    rewrite lookup_insert_ne by done.
    rewrite redfin_default_cells_lookup
      by (rewrite !elem_of_cons, elem_of_nil; intros [?|[?|[?|[?|[?|[?|[]]]]]]]; done).
    rewrite redfin_rename_lookup
      by (rewrite !elem_of_cons, elem_of_nil; intros [?|[?|[?|[?|[?|[?|[?|[]]]]]]]]; done).
    by rewrite lookup_insert_eq.
  - rewrite restrict_lookup, decide_True
      by (apply Hcol; rewrite !elem_of_cons; tauto).
    rewrite lookup_insert_eq. do 2 f_equal.
    + apply bool_decide_ext. rewrite redfin_defaults_columns.
      rewrite columns_rename, redfin_rename_columns
        by (rewrite !elem_of_cons, elem_of_nil; intros [?|[?|[?|[?|[?|[?|[?|[]]]]]]]]; done).
      cbn [columns]. rewrite !elem_of_add_label, !elem_of_cons, elem_of_nil.
      split; [|tauto]. intros [[?|[?|[?|[?|[?|[?|[]]]]]]]|[?|[?|?]]]; done.
    + unfold cell.
      rewrite redfin_default_cells_lookup
        by (rewrite !elem_of_cons, elem_of_nil; intros [?|[?|[?|[?|[?|[?|[]]]]]]]; done).
      rewrite redfin_rename_lookup
        by (rewrite !elem_of_cons, elem_of_nil; intros [?|[?|[?|[?|[?|[?|[?|[]]]]]]]]; done).
      by rewrite !lookup_insert_ne.
Qed.

Lemma clean_redfin_cases df :
  clean_redfin_data df = empty_frame
  ∨ ∃ df5, clean_redfin_data df
           = drop_duplicates "listing_id" (select listing_columns df5).
Proof.
  unfold clean_redfin_data. destruct (df_empty df); [by left|].
  destruct (redfin_body df) as [out|] eqn:Hbody; [|by left].
  apply redfin_body_Some in Hbody as (_ & _ & df5 & _ & _ & _ & ->).
  right. by exists df5.
Qed.

(** *** [drop_duplicates] *)

Lemma float_eqb_refl a : float_eqb a a = true.
Proof.
  destruct a as [q| |]; simpl; [|done..].
  apply Qeq_bool_iff. reflexivity.
Qed.

Lemma value_eqb_refl v : value_eqb v v = true.
Proof.
  destruct v; cbn [value_eqb number]; try done.
  - apply float_eqb_refl.
  - apply float_eqb_refl.
  - by apply bool_decide_eq_true_2.
  - by apply bool_decide_eq_true_2.
Qed.

Lemma dedup_rows_distinct c seen rs :
  NoDup ((λ o, cell o c) <$> dedup_rows c seen rs)
  ∧ ∀ o v, o ∈ dedup_rows c seen rs → v ∈ seen →
           value_eqb (cell o c) v = false.
Proof.
  revert seen. induction rs as [|r rs IH]; intros seen; cbn [dedup_rows].
  - split; [constructor|]. by intros o v ?%elem_of_nil.
  - destruct (existsb (value_eqb (cell r c)) seen) eqn:Hex; [apply IH|].
    destruct (IH (cell r c :: seen)) as [Hnd Hseen].
    split.
    + rewrite fmap_cons. constructor; [|done].
      intros (o & Heq & Ho)%list_elem_of_fmap.
      assert (value_eqb (cell o c) (cell r c) = false) as Hne
        by (apply Hseen; [done|by left]).
      by rewrite <- Heq, value_eqb_refl in Hne.
    + intros o v [->|Ho]%elem_of_cons Hv.
      * apply not_true_iff_false. intros Ht.
        apply not_true_iff_false in Hex. apply Hex.
        apply existsb_exists. exists v. split; [|done].
        by apply list_elem_of_In.
      * apply Hseen; [done|by right].
Qed.

(** The identifiers of the records the tabular adapter emits are
    pairwise distinct: line 160 drops every later record of an identifier
    already seen. *)
Lemma redfin_ids_distinct df :
  NoDup ((λ o, cell o "listing_id") <$> rows (clean_redfin_data df)).
Proof.
  destruct (clean_redfin_cases df) as [->|[df5 ->]]; [constructor|].
  unfold drop_duplicates. cbn [rows]. apply dedup_rows_distinct.
Qed.

(** *** The category *)

Lemma lookup_label_unmapped t :
  t ∉ ["single family residential"; "condo/co-op"; "townhouse"] →
  lookup_label property_type_map t = None.
Proof.
  rewrite !elem_of_cons, elem_of_nil. intros Ht.
  unfold property_type_map. cbn [lookup_label].
  rewrite !decide_False; [done|..]; intros ->; tauto.
Qed.


End RedfinFacts.

(* ===================================================================== *)
(** ** Properties of the identifier                                       *)
(* ===================================================================== *)

Section StringFacts.

Lemma str_app_nil (t : string) : "" +:+ t = t.
Proof. reflexivity. Qed.

Lemma str_app_cons (a : ascii) (s t : string) :
  String a s +:+ t = String a (s +:+ t).
Proof. reflexivity. Qed.

Lemma str_length_app (s t : string) :
  String.length (s +:+ t) = (String.length s + String.length t)%nat.
Proof.
  induction s as [|a s IH]; [done|].
  rewrite str_app_cons. cbn [String.length]. by rewrite IH.
Qed.

(** Cancelling a common suffix. *)
Lemma str_app_inj_r (s1 s2 t : string) : s1 +:+ t = s2 +:+ t → s1 = s2.
Proof.
  revert s2. induction s1 as [|a s1 IH]; intros [|b s2] Heq.
  - done.
  - apply (f_equal String.length) in Heq.
    rewrite str_app_nil, str_app_cons in Heq. cbn [String.length] in Heq.
    rewrite str_length_app in Heq. lia.
  - apply (f_equal String.length) in Heq.
    rewrite str_app_nil, str_app_cons in Heq. cbn [String.length] in Heq.
    rewrite str_length_app in Heq. lia.
  - rewrite !str_app_cons in Heq. injection Heq as -> Heq.
    f_equal. by apply IH.
Qed.

(** More pigeons than holes: a function from the naturals into [M] values
    is not injective. *)
Lemma pigeonhole (M : nat) (f : nat → nat) :
  (∀ n, (f n < M)%nat) → ¬ (∀ i j, f i = f j → i = j).
Proof.
  intros Hb Hinj.
  assert (Hnd : NoDup (f <$> seq 0 (S M))).
  { apply NoDup_fmap_2_strong; [|apply NoDup_seq]. intros i j _ _. apply Hinj. }
  assert (Hsub : f <$> seq 0 (S M) ⊆+ seq 0 M).
  { apply NoDup_submseteq; [done|].
    intros x (n & -> & _)%list_elem_of_fmap.
    apply elem_of_seq. specialize (Hb n). lia. }
  apply submseteq_length in Hsub.
  rewrite length_fmap, !length_seq in Hsub. lia.
Qed.

End StringFacts.

Section DigestFacts.

Import MD5.

Lemma add32_bounded x y : 0 ≤ add32 x y < 2 ^ 32.
Proof. unfold add32. apply Z.mod_pos_bound. lia. Qed.

Lemma blocks_bounded n bs st :
  (0 ≤ sA st < 2 ^ 32 ∧ 0 ≤ sB st < 2 ^ 32) →
  0 ≤ sA (blocks n bs st) < 2 ^ 32 ∧ 0 ≤ sB (blocks n bs st) < 2 ^ 32.
Proof.
  revert bs st. induction n as [|n IH]; intros bs st Hst; [done|].
  cbn [blocks]. apply IH. unfold compress. cbn [sA sB].
  split; apply add32_bounded.
Qed.

(** The first two words of a digest are 32-bit words. *)
Lemma digest_bounded msg :
  0 ≤ sA (digest msg) < 2 ^ 32 ∧ 0 ≤ sB (digest msg) < 2 ^ 32.
Proof.
  unfold digest. apply blocks_bounded. unfold init. cbn [sA sB]. lia.
Qed.

(** The sixteen hex digits are those of the first two words. *)
Lemma md5_16_words text :
  md5_16 text
  = hex_word (sA (digest (bytes_of_string text)))
    +:+ hex_word (sB (digest (bytes_of_string text))).
Proof.
  unfold md5_16, hexdigest.
  generalize (digest (bytes_of_string text)). intros [a b c d].
  cbn [sA sB sC sD]. unfold hex_word.
  rewrite !str_app_cons, !str_app_nil. cbn [str_take]. reflexivity.
Qed.

End DigestFacts.

Section IdentifierFacts.
Context `{Externals}.

Lemma id_text_key_inj src k1 k2 p :
  id_text src k1 p = id_text src k2 p → format_value k1 = format_value k2.
Proof.
  unfold id_text. intros Heq.
  apply (inj (String.app src)), (inj (String.app "_")) in Heq.
  by apply str_app_inj_r in Heq.
Qed.

Lemma id_text_period_inj src k p1 p2 :
  id_text src k p1 = id_text src k p2 → format_date p1 = format_date p2.
Proof.
  unfold id_text. intros Heq.
  by apply (inj (String.app src)), (inj (String.app "_")),
    (inj (String.app (format_value k))), (inj (String.app "_")) in Heq.
Qed.


End IdentifierFacts.

(* ===================================================================== *)
(** ** The properties at the sample inputs                                *)
(* ===================================================================== *)

Import Samples.

Local Abbreviation RE := Reference.externals.
Local Abbreviation RS := Reference.schema.


(** C4 at the boundary: a price of 100_000_000 is kept, one of 100_000_001
    is dropped, a record with 21 bedrooms is kept with [bedrooms] nulled. *)
Lemma validate_data_rules_witness :
  wf_frame boundary_batch
  ∧ "price" ∈ columns boundary_batch
  ∧ comparable boundary_batch
  ∧ validate_data boundary_batch
    = Some (Frame listing_columns
              [ listing "a" (VStr "FL") (VInt 100000000) VNull;
                listing "c" (VStr "FL") (VInt 250000) VNull ]).
Proof.
  assert (Hwf : wf_frame boundary_batch).
  { unfold wf_frame. repeat constructor; vm_compute; reflexivity. }
  assert (Hp : "price" ∈ columns boundary_batch).
  { unfold boundary_batch, listing_columns. cbn [columns].
    rewrite !elem_of_cons. tauto. }
  assert (Hc : comparable boundary_batch).
  { unfold comparable. repeat constructor. }
  split; [exact Hwf|]. split; [exact Hp|]. split; [exact Hc|].
  rewrite (validate_data_rules boundary_batch Hwf Hp Hc).
  vm_compute. reflexivity.
Defined.

(** C6 at a table that holds listing ["a"] and a record that re-prices it. *)
Lemma upsert_frame_witness :
  let st := load_listings (H:=RE) (H0:=RS) empty_store one_record_batch in
  written (H:=RE) (H0:=RS) repriced = Some ("a", repriced_params)
  ∧ listings (store st) !! "a" = Some stored_a
  ∧ ∃ new, listings (store (load_record (H:=RE) (H0:=RS) st repriced)) !! "a"
           = Some new
      ∧ same_fixed new stored_a
      ∧ l_price new = Some (float_of_Z 333000)
      ∧ l_updated_at new = Some 1.
Proof.
  intros st.
  assert (Hw : written (H:=RE) (H0:=RS) repriced = Some ("a", repriced_params))
    by (vm_compute; reflexivity).
  assert (Ho : listings (store st) !! "a" = Some stored_a)
    by (vm_compute; reflexivity).
  split; [exact Hw|]. split; [exact Ho|].
  destruct (upsert_frame (H:=RE) (H0:=RS) st repriced "a" repriced_params
              stored_a Hw Ho) as [(new & Hn & Hf & Hp & Ht) _].
  exists new. split; [exact Hn|]. split; [exact Hf|]. split; [exact Hp|exact Ht].
Defined.

(** C9 at one metro area with values for three months. *)
Lemma zillow_reshape_witness :
  let r := new_york (VInt 500000) (VInt 505000) (VInt 510000) in
  rows zillow_one = [r]
  ∧ zillow_date_cols zillow_one = ["2020-01-31"; "2020-02-29"; "2020-03-31"]
  ∧ "RegionID" ∈ columns zillow_one
  ∧ r !! "RegionID" = Some (VInt 394913)
  ∧ to_datetime (Externals:=RE) (VStr "2020-01-31") = Some 1580428800000000000
  ∧ to_datetime (Externals:=RE) (VStr "2020-02-29") = Some 1582934400000000000
  ∧ to_datetime (Externals:=RE) (VStr "2020-03-31") = Some 1585612800000000000
  ∧ rows (clean_zillow_data (H:=RE) zillow_one)
    = [ zillow_record (H:=RE) zillow_one r "2020-01-31" 1580428800000000000 (VInt 394913);
        zillow_record (H:=RE) zillow_one r "2020-02-29" 1582934400000000000 (VInt 394913);
        zillow_record (H:=RE) zillow_one r "2020-03-31" 1585612800000000000 (VInt 394913) ].
Proof.
  intros r.
  assert (H1 : rows zillow_one = [r]) by reflexivity.
  assert (H2 : zillow_date_cols zillow_one
               = ["2020-01-31"; "2020-02-29"; "2020-03-31"])
    by (vm_compute; reflexivity).
  assert (H3 : "RegionID" ∈ columns zillow_one) by (by left).
  assert (H4 : r !! "RegionID" = Some (VInt 394913)) by (vm_compute; reflexivity).
  assert (H5 : to_datetime (Externals:=RE) (VStr "2020-01-31")
               = Some 1580428800000000000) by (vm_compute; reflexivity).
  assert (H6 : to_datetime (Externals:=RE) (VStr "2020-02-29")
               = Some 1582934400000000000) by (vm_compute; reflexivity).
  assert (H7 : to_datetime (Externals:=RE) (VStr "2020-03-31")
               = Some 1585612800000000000) by (vm_compute; reflexivity).
  repeat (split; [assumption|]).
  destruct (zillow_reshape (H:=RE) zillow_one r (VInt 394913) _ _ _ _ _ _
              H1 H2 H3 H4 H5 H6 H7) as [Hrows _].
  rewrite Hrows. reflexivity.
Defined.


(** C1, counterexample. Loading a one-record batch into an empty table and
    loading it again leaves two different tables: the second run rewrites
    [updated_at]. *)
Lemma replay_rewrites_updated_at :
  let once := load_listings (H:=RE) (H0:=RS) empty_store one_record_batch in
  let twice := load_listings (H:=RE) (H0:=RS) (store once) one_record_batch in
  listings (store twice) ≠ listings (store once)
  ∧ (l_updated_at <$> listings (store once) !! "a") = Some (Some 0)
  ∧ (l_updated_at <$> listings (store twice) !! "a") = Some (Some 1).
Proof.
  intros once twice.
  assert (H1 : (l_updated_at <$> listings (store once) !! "a") = Some (Some 0))
    by (vm_compute; reflexivity).
  assert (H2 : (l_updated_at <$> listings (store twice) !! "a") = Some (Some 1))
    by (vm_compute; reflexivity).
  split; [|done]. intros Heq. rewrite Heq in H2. congruence.
Qed.



(** C9, counterexample. One entity row with three date columns, one of them
    without a value, gives two records, for the first and the third date. *)
Lemma missing_value_makes_two_records :
  df_len (clean_zillow_data (H:=RE) zillow_gap) = 2%nat
  ∧ (λ o, cell o "date") <$> rows (clean_zillow_data (H:=RE) zillow_gap)
    = [VTime 1580428800000000000; VTime 1585612800000000000].
Proof. split; vm_compute; reflexivity. Qed.

(** C7. The wide-format adapter on a file in which one metro area occurs on
    two lines: every identifier is emitted twice. *)
Lemma zillow_duplicate_identifiers :
  (λ o, cell o "listing_id") <$> rows (clean_zillow_data (H:=RE) zillow_twice)
  = [ VStr "768752e0b70b4852"; VStr "768752e0b70b4852";
      VStr "89c8d3cefa9d19dc"; VStr "89c8d3cefa9d19dc";
      VStr "e1cafc95f9260eb6"; VStr "e1cafc95f9260eb6" ]
  ∧ ¬ NoDup ((λ o, cell o "listing_id")
               <$> rows (clean_zillow_data (H:=RE) zillow_twice)).
Proof.
  assert (Hids : (λ o, cell o "listing_id")
                   <$> rows (clean_zillow_data (H:=RE) zillow_twice)
    = [ VStr "768752e0b70b4852"; VStr "768752e0b70b4852";
        VStr "89c8d3cefa9d19dc"; VStr "89c8d3cefa9d19dc";
        VStr "e1cafc95f9260eb6"; VStr "e1cafc95f9260eb6" ])
    by (vm_compute; reflexivity).
  split; [done|]. rewrite Hids. intros Hnd.
  apply NoDup_cons in Hnd as [Hnot _]. apply Hnot. by left.
Qed.

